(** * Webhook relay (src/app.py): a shallow embedding and its contract

    The program is one Flask view function, [webhook], and one helper,
    [send_fonnte_reply].  Both talk to the outside world: the Flask request
    object, the Gemini completion client, the [requests] HTTP client and the
    [logging] module.  The embedding keeps the control flow of the two
    functions as it is written and makes the outside world explicit:

    - what the world answers is read from a [world] record (the two
      module-level globals and the answer of [requests.post]) and from the
      [request] record (what Flask exposes of the incoming request);
    - what the program does to the world is written to a trace of [event]s;
    - Python exceptions are the [Raise] outcome of the monad [M], with
      [try_except] for the two [try] blocks of the source.

    Library calls follow the behaviour of the library:
    [Response.raise_for_status] raises [HTTPError] for a 4xx or 5xx status;
    [requests.post] and [Response.json] can raise a [RequestException] or an
    exception of another class (a [UnicodeEncodeError] while the form is
    encoded, a [RecursionError] on a deeply nested body), and only the
    former is caught by the [except] of line 77; [request.is_json] looks at
    the declared content type; [request.get_json] turns a [ValueError] of
    the JSON loader into werkzeug's [BadRequest] and lets any other exception
    through; a route registered with a list of methods is only called for
    those methods (and HEAD, when GET is listed). *)

From Stdlib Require Import ZArith Floats.PrimFloat.
From stdpp Require Import base option list gmap strings.

Set Warnings "-register-all".
Open Scope Z_scope.
Open Scope string_scope.

(** ** Python values

    What [request.get_json()] can return: the image of a JSON document under
    [json.loads].  A JSON object becomes a [dict] with string keys. *)

Inductive pyval : Type :=
| PNone
| PBool (b : bool)
| PInt (z : Z)
| PFloat (f : float)
| PStr (s : string)
| PList (l : list pyval)
| PDict (d : gmap string pyval).

(** Truth value of an object, as [not x] and [if x] test it. *)
Definition truthy (v : pyval) : bool :=
  match v with
  | PNone => false
  | PBool b => b
  | PInt z => negb (Z.eqb z 0)
  | PFloat f => negb (PrimFloat.eqb f PrimFloat.zero)
  | PStr s => negb (String.eqb s "")
  | PList l => match l with [] => false | _ :: _ => true end
  | PDict d => negb (bool_decide (d = ∅))
  end.

(** [os.getenv] gives [None] or a [str]; [not FONTE_API_TOKEN] holds for
    [None] and for the empty string. *)
Definition str_truthy (o : option string) : bool :=
  match o with
  | None => false
  | Some s => negb (String.eqb s "")
  end.

(** ** Exceptions *)

(** Subclasses of [requests.exceptions.RequestException]. *)
Inductive request_exception : Type :=
| ConnectionError
| Timeout
| TooManyRedirects
| HTTPError
| JSONDecodeError
| InvalidRequest (what : string).

(** What the libraries under the program ([requests], [json], the Gemini
    client) can raise: a [RequestException]; a [ValueError] or one of its
    subclasses ([json.JSONDecodeError], [UnicodeDecodeError],
    [UnicodeEncodeError]), with the name of its class; an exception of any
    other class ([RecursionError], ...), with the name of its class. *)
Inductive error : Type :=
| RequestException (r : request_exception)
| ValueError (cls : string)
| OtherException (name : string).

(** Subclasses of [Exception] the program can meet: the errors of the
    libraries, the [AttributeError] of a method call on the wrong type, and
    werkzeug's HTTP exceptions raised by [get_json]. *)
Inductive exn : Type :=
| Error (e : error)
| AttributeError
| BadRequest
| UnsupportedMediaType.

Coercion Error : error >-> exn.

(** [except requests.exceptions.RequestException] *)
Definition is_RequestException (e : exn) : bool :=
  match e with
  | Error (RequestException _) => true
  | _ => false
  end.

(** [except ValueError], as [get_json] has it around the JSON loader;
    [requests]' own [JSONDecodeError] is a [ValueError] too. *)
Definition is_ValueError (e : error) : bool :=
  match e with
  | ValueError _ => true
  | RequestException JSONDecodeError => true
  | _ => false
  end.

(** [except Exception] *)
Definition is_Exception (e : exn) : bool := true.

(** ** Events and the monad *)

Inductive level : Type := INFO | WARNING | ERROR.

(** What a run does, in order.  [Log] keeps the level and the constant part
    of the message (the interpolated values are left out); [GenerateContent]
    is a call of [model.generate_content]; [SendCall] marks the entry into
    [send_fonnte_reply] with its two arguments; [HttpPost] is a call of
    [requests.post] with the URL, the [Authorization] header and the two
    form fields. *)
Inductive event : Type :=
| Log (lvl : level) (msg : string)
| GenerateContent (prompt : pyval)
| SendCall (target : pyval) (message : string)
| HttpPost (url authorization : string) (target : pyval) (message : string).

Inductive outcome (A : Type) : Type :=
| Return (a : A)
| Raise (e : exn).
Arguments Return {A} a.
Arguments Raise {A} e.

(** A computation: the events it produced, then its value or the exception
    that left it. *)
Definition M (A : Type) : Type := (list event * outcome A)%type.

#[global] Instance M_ret : MRet M := λ A a, ([], Return a).

#[global] Instance M_bind : MBind M := λ A B k m,
  match m with
  | (tr, Return a) => let '(tr', r) := k a in ((tr ++ tr')%list, r)
  | (tr, Raise e) => (tr, Raise e)
  end.

Definition raise {A : Type} (e : exn) : M A := ([], Raise e).

Definition emit (ev : event) : M unit := ([ev], Return tt).

Definition lift {A : Type} (o : outcome A) : M A := ([], o).

(** [try: body  except <catches> as e: handler e] *)
Definition try_except {A : Type}
    (body : M A) (catches : exn → bool) (handler : exn → M A) : M A :=
  match body with
  | (tr, Return a) => (tr, Return a)
  | (tr, Raise e) =>
      if catches e
      then let '(tr', r) := handler e in ((tr ++ tr')%list, r)
      else (tr, Raise e)
  end.

(** ** The world *)

(** [requests.Response]: the status code, and what [.json()] does: it
    returns the decoded body or raises ([JSONDecodeError], a
    [RequestException], on a body that is not JSON). *)
Record Response : Type := {
  status_code : Z;
  json : error + pyval
}.

(** The object [model.generate_content] returns; reading [.text] can raise. *)
Record GenerateContentResponse : Type := {
  text : outcome string
}.

Record GenerativeModel : Type := {
  generate_content : pyval → outcome GenerateContentResponse
}.

(** The module-level state after start-up, and the network.  [model] is
    [None] when configuring Gemini raised (line 52).  [requests_post] is
    what [requests.post] does with a URL, an [Authorization] header and the
    two form fields: it returns a response or raises. *)
Record world : Type := {
  FONTE_API_TOKEN : option string;
  model : option GenerativeModel;
  requests_post :
    string → string → pyval → string → error + Response
}.

(** What the view reads of Flask's [request]: the method, whether the
    declared content type is JSON, and what the JSON loader does with the
    body: it returns the parsed document or raises (a [ValueError] on a body
    that is not JSON). *)
Record request : Type := {
  method : string;
  is_json : bool;
  json_body : error + pyval
}.

(** [jsonify(...)] with its status code. *)
Definition response : Type := (list (string * string) * Z)%type.

(** ** Library calls *)

Definition post (w : world) (url authorization : string)
    (target : pyval) (message : string) : M Response :=
  emit (HttpPost url authorization target message);;
  match requests_post w url authorization target message with
  | inl e => raise (Error e)
  | inr r => mret r
  end.

Definition raise_for_status (r : Response) : M unit :=
  if Z.leb 400 (status_code r) && Z.ltb (status_code r) 600
  then raise (RequestException HTTPError)
  else mret tt.

Definition Response_json (r : Response) : M pyval :=
  match json r with
  | inr v => mret v
  | inl e => raise (Error e)
  end.

Definition get_json (r : request) : M pyval :=
  if is_json r
  then match json_body r with
       | inr v => mret v
       | inl e => if is_ValueError e then raise BadRequest else raise (Error e)
       end
  else raise UnsupportedMediaType.

(** [data.get(key)]: only a [dict] has the method. *)
Definition py_get (data : pyval) (key : string) : M pyval :=
  match data with
  | PDict d => mret (default PNone (d !! key))
  | _ => raise AttributeError
  end.

(** ** send_fonnte_reply (lines 55-79) *)

Definition fonnte_url : string := "https://api.fonnte.com/send".

Definition send_fonnte_reply (w : world) (target : pyval) (message : string)
    : M bool :=
  emit (SendCall target message);;
  if negb (str_truthy (FONTE_API_TOKEN w)) then
    emit (Log ERROR "Fonnte API Token tidak ada, tidak bisa mengirim balasan.");;
    mret false
  else
    try_except
      (resp ← post w fonnte_url (default "" (FONTE_API_TOKEN w)) target message;
       raise_for_status resp;;
       body ← Response_json resp;
       emit (Log INFO "Berhasil mengirim balasan ke ");;
       mret true)
      is_RequestException
      (λ e, emit (Log ERROR "Gagal mengirim balasan via Fonnte: ");;
            mret false).

(** ** webhook (lines 82-135) *)

Definition unavailable_text : string :=
  "Maaf, layanan chatbot sedang mengalami gangguan. Silakan coba lagi nanti.".

Definition error_text : string :=
  "Maaf, terjadi kesalahan saat memproses permintaan Anda.".

Definition webhook (w : world) (r : request) : M response :=
  if String.eqb (method r) "GET" then
    emit (Log INFO "Menerima GET request ke webhook. Merespon dengan status OK.");;
    mret ([("status", "success");
           ("message", "Webhook is active and ready for POST requests.")], 200)
  else if String.eqb (method r) "POST" then
    if negb (is_json r) then
      emit (Log WARNING "POST request tidak berisi JSON.");;
      mret ([("status", "error"); ("message", "Request must be JSON")], 400)
    else
      data ← get_json r;
      emit (Log INFO "Menerima data dari Fonnte: ");;
      user_message ← py_get data "message";
      if negb (truthy user_message) then
        emit (Log INFO "Menerima event status dari Fonnte, bukan pesan masuk. Mengabaikan.");;
        mret ([("status", "ok"); ("message", "Status update received")], 200)
      else
        sender ← py_get data "sender";
        match model w with
        | None =>
            emit (Log ERROR "Model Gemini tidak tersedia, tidak bisa memproses pesan.");;
            send_fonnte_reply w sender unavailable_text;;
            mret ([("status", "error"); ("message", "Model not configured")], 500)
        | Some gemini =>
            try_except
              (emit (Log INFO "Mengirim pesan ke Gemini: ");;
               emit (GenerateContent user_message);;
               resp ← lift (generate_content gemini user_message);
               ai_reply ← lift (text resp);
               emit (Log INFO "Menerima balasan dari Gemini: ");;
               send_fonnte_reply w sender ai_reply;;
               mret ([("status", "success")], 200))
              is_Exception
              (λ e, emit (Log ERROR "Terjadi error saat memproses chat: ");;
                    send_fonnte_reply w sender error_text;;
                    mret ([("status", "error");
                           ("message", "Internal server error")], 500))
        end
  else
    mret ([("status", "error"); ("message", "Method not allowed")], 405).

(** ** Flask's routing of /webhook (line 82)

    [@app.route('/webhook', methods=['POST', 'GET'])]: the rule answers the
    listed methods, and HEAD because GET is listed; Flask answers OPTIONS
    itself; for any other method the router raises [MethodNotAllowed] and the
    view is not called.  An exception that leaves the view becomes the error
    page of its status. *)

Inductive http_response : Type :=
| ViewResponse (r : response)
| DefaultOptions
| ErrorPage (status : Z).

Definition http_status (h : http_response) : Z :=
  match h with
  | ViewResponse r => snd r
  | DefaultOptions => 200
  | ErrorPage status => status
  end.

Definition route_methods : list string := ["POST"; "GET"].

Definition handle_exception (e : exn) : http_response :=
  match e with
  | BadRequest => ErrorPage 400
  | UnsupportedMediaType => ErrorPage 415
  | _ => ErrorPage 500
  end.

Definition dispatch_webhook (w : world) (r : request)
    : list event * http_response :=
  if bool_decide (method r ∈ route_methods)
     || (String.eqb (method r) "HEAD" && bool_decide ("GET" ∈ route_methods))
  then
    match webhook w r with
    | (tr, Return resp) => (tr, ViewResponse resp)
    | (tr, Raise e) => (tr, handle_exception e)
    end
  else if String.eqb (method r) "OPTIONS" then ([], DefaultOptions)
  else ([], ErrorPage 405).

(** ** Observing a trace *)

(** The calls of [send_fonnte_reply], in order: target and text. *)
Definition send_calls (tr : list event) : list (pyval * string) :=
  omap (λ ev, match ev with SendCall t m => Some (t, m) | _ => None end) tr.

(** The prompts handed to [model.generate_content], in order. *)
Definition completion_calls (tr : list event) : list pyval :=
  omap (λ ev, match ev with GenerateContent p => Some p | _ => None end) tr.

(** The [requests.post] calls, in order. *)
Definition http_posts (tr : list event)
    : list (string * string * pyval * string) :=
  omap (λ ev, match ev with
              | HttpPost u a t m => Some (u, a, t, m)
              | _ => None
              end) tr.

(** The posts one call of [send_fonnte_reply] makes: one when the token is
    set, none otherwise. *)
Definition posts_of_send (w : world) (target : pyval) (message : string)
    : list (string * string * pyval * string) :=
  if str_truthy (FONTE_API_TOKEN w)
  then [(fonnte_url, default "" (FONTE_API_TOKEN w), target, message)]
  else [].

(** The completion as the view uses it: [generate_content] and then [.text]. *)
Definition complete (gemini : GenerativeModel) (prompt : pyval)
    : outcome string :=
  match generate_content gemini prompt with
  | Return resp => text resp
  | Raise e => Raise e
  end.

(** The payload is a JSON document Flask accepts. *)
Definition json_request (r : request) (data : pyval) : Prop :=
  method r = "POST" ∧ is_json r = true ∧ json_body r = inr data.

(** A genuine inbound message: an accepted JSON object whose ["message"]
    entry is true in Python's sense (for a string: not empty). *)
Definition genuine_message (r : request) (d : gmap string pyval) (m : pyval)
    : Prop :=
  json_request r (PDict d) ∧ d !! "message" = Some m ∧ truthy m = true.

(** What [data.get("sender")] gives. *)
Definition sender_of (d : gmap string pyval) : pyval :=
  default PNone (d !! "sender").

(** The ["message"] entry of a payload, when the payload has one. *)
Definition message_field (data : pyval) : option pyval :=
  match data with
  | PDict d => d !! "message"
  | _ => None
  end.

(** The entry is absent, or false in Python's sense ([None], [""], ...). *)
Definition absent_or_empty (o : option pyval) : Prop :=
  match o with
  | None => True
  | Some m => truthy m = false
  end.

(** A POST that Flask does not take as JSON: the content type does not say
    JSON, or the JSON loader rejects the body with a [ValueError]. *)
Definition non_json_post (r : request) : Prop :=
  method r = "POST"
  ∧ (is_json r = false ∨ ∃ e, json_body r = inl e ∧ is_ValueError e = true).

(** The text the view hands to the send helper first: the generated reply,
    or the fallback of the path taken. *)
Definition reply_text (w : world) (m : pyval) : string :=
  match model w with
  | None => unavailable_text
  | Some gemini =>
      match complete gemini m with
      | Return reply => reply
      | Raise _ => error_text
      end
  end.

(** The send of the generated reply let an exception out (line 125), so the
    [except] of line 129 sends the error text as well (line 131). *)
Definition retried (w : world) (d : gmap string pyval) (m : pyval) : bool :=
  match model w with
  | None => false
  | Some gemini =>
      match complete gemini m with
      | Return reply =>
          match (send_fonnte_reply w (sender_of d) reply).2 with
          | Return _ => false
          | Raise _ => true
          end
      | Raise _ => false
      end
  end.


(** How a branch that ends with a send and [return resp] ends. *)
Definition and_then (sent : M bool) (resp : response) : outcome response :=
  match sent.2 with
  | Return _ => Return resp
  | Raise e => Raise e
  end.

(** ** Concrete worlds and requests used below *)

Definition echo_model : GenerativeModel :=
  {| generate_content := λ _, Return {| text := Return "Tonsilitis adalah..." |} |}.

Definition failing_model : GenerativeModel :=
  {| generate_content := λ _, Raise (OtherException "ResourceExhausted") |}.

Definition world_with (tok : option string) (m : option GenerativeModel)
    (status : Z) (body : option pyval) : world :=
  {| FONTE_API_TOKEN := tok;
     model := m;
     requests_post := λ _ _ _ _,
       inr {| status_code := status;
              json := match body with
                      | Some v => inr v
                      | None => inl (RequestException JSONDecodeError)
                      end |} |}.

(** A world whose token is not latin-1: [requests.post] cannot encode the
    [Authorization] header and raises [UnicodeEncodeError], which is not a
    [RequestException], on every call.  (A sender with a lone surrogate has
    the same effect on the form fields.) *)
Definition unencodable_world (m : option GenerativeModel) : world :=
  {| FONTE_API_TOKEN := Some "токен";
     model := m;
     requests_post := λ _ _ _ _, inl (ValueError "UnicodeEncodeError") |}.

Definition chat_payload : gmap string pyval :=
  <["sender" := PStr "628123"]> (<["message" := PStr "apa itu tonsilitis?"]> ∅).

Definition status_payload : gmap string pyval :=
  <["event" := PStr "sent"]> (<["id" := PStr "abc"]> ∅).

(** A chat payload without sender. *)
Definition anonymous_payload : gmap string pyval :=
  <["message" := PStr "halo"]> ∅.

Definition json_post (data : pyval) : request :=
  {| method := "POST"; is_json := true; json_body := inr data |}.

Definition bare_request (meth : string) : request :=
  {| method := meth; is_json := false;
     json_body := inl (ValueError "JSONDecodeError") |}.

(** Content type [application/json], body [hello]. *)
Definition unparsable_post : request :=
  {| method := "POST"; is_json := true;
     json_body := inl (ValueError "JSONDecodeError") |}.

(** ** Module start-up (lines 17-52)

    What the module does when it is loaded: it reads the two keys from the
    environment, logs two errors when one is missing (and goes on: the
    [exit()] of line 25 is commented out), and configures Gemini inside a
    [try] whose [except Exception] leaves [model = None]. *)

(** What start-up reads: the process environment (after [load_dotenv]), the
    two calls into [google.generativeai], and the network the application
    will later post to. *)
Record environment : Type := {
  getenv : string → option string;
  genai_configure : option string → outcome unit;
  genai_GenerativeModel : string → string → outcome GenerativeModel;
  network : string → string → pyval → string → error + Response
}.

Definition SYSTEM_INSTRUCTION : string :=
  "Kamu adalah Theo, asisten virtual yang akan membantu menjawab pertanyaan seputar THT (Telinga, Hidung, dan Tenggorokan). "
  +:+ "Jawablah dengan ramah, singkat, dan profesional. "
  +:+ "Jika ada yang bertanya siapa Anda, perkenalkan diri Anda sebagai 'Theo', asisten yang siap membantu dengan informasi seputar THT. "
  +:+ "Berikan jawaban yang singkat, padat, dan jelas. Hindari respon yang terlalu panjang. "
  +:+ "Tugas utama Anda adalah memberikan informasi yang akurat dan umum terkait THT. "
  +:+ "PENTING: JANGAN memberikan diagnosis medis, resep, atau anjuran pengobatan spesifik. "
  +:+ "Selalu sarankan pengguna untuk berkonsultasi dengan dokter untuk masalah medis. "
  +:+ "Jika ada pertanyaan di luar konteks THT, tolak dengan sopan dan jelaskan bahwa Anda hanya dapat menjawab pertanyaan seputar THT.".

Definition model_name : string := "models/gemini-2.5-flash".

(** Lines 28-52. *)
Definition configure_gemini (env : environment) : M (option GenerativeModel) :=
  try_except
    (lift (genai_configure env (getenv env "GEMINI_API_KEY"));;
     gemini ← lift (genai_GenerativeModel env model_name SYSTEM_INSTRUCTION);
     emit (Log INFO "Model Gemini berhasil dikonfigurasi.");;
     mret (Some gemini))
    is_Exception
    (λ e, emit (Log ERROR "Gagal mengkonfigurasi Gemini: ");;
          mret None).

(** Lines 18-52: the world the views run in. *)
Definition startup (env : environment) : M world :=
  let token := getenv env "FONTE_API_TOKEN" in
  let key := getenv env "GEMINI_API_KEY" in
  (if negb (str_truthy token) || negb (str_truthy key) then
     emit (Log ERROR "API key untuk Fonnte atau Gemini tidak ditemukan. Harap set di file .env");;
     emit (Log ERROR "Anda bisa memilih untuk exit jika keys tidak ada")
   else mret tt);;
  gemini ← configure_gemini env;
  mret {| FONTE_API_TOKEN := token;
          model := gemini;
          requests_post := network env |}.

(** Start-up raised while configuring Gemini: in [genai.configure] or in the
    [GenerativeModel] constructor. *)
Definition configuration_raises (env : environment) : Prop :=
  (∃ e, genai_configure env (getenv env "GEMINI_API_KEY") = Raise e)
  ∨ (∃ e, genai_GenerativeModel env model_name SYSTEM_INSTRUCTION = Raise e).

(** The model start-up ends with: the constructed one when both calls
    return, [None] otherwise. *)
Definition configured_model (env : environment) : option GenerativeModel :=
  match genai_configure env (getenv env "GEMINI_API_KEY") with
  | Return _ =>
      match genai_GenerativeModel env model_name SYSTEM_INSTRUCTION with
      | Return gemini => Some gemini
      | Raise _ => None
      end
  | Raise _ => None
  end.

(** The run of one post: what it gives when it fails in a way line 77
    catches, when it succeeds, and when an exception gets past line 77. *)
Definition send_failed (w : world) (target : pyval) (message : string) : M bool :=
  ([SendCall target message;
    HttpPost fonnte_url (default "" (FONTE_API_TOKEN w)) target message;
    Log ERROR "Gagal mengirim balasan via Fonnte: "],
   Return false).

Definition send_succeeded (w : world) (target : pyval) (message : string) : M bool :=
  ([SendCall target message;
    HttpPost fonnte_url (default "" (FONTE_API_TOKEN w)) target message;
    Log INFO "Berhasil mengirim balasan ke "],
   Return true).

Definition send_escaped (w : world) (target : pyval) (message : string)
    (e : error) : M bool :=
  ([SendCall target message;
    HttpPost fonnte_url (default "" (FONTE_API_TOKEN w)) target message],
   Raise (Error e)).

(** The event of a post. *)
Definition post_event (p : string * string * pyval * string) : event :=
  match p with
  | (u, a, t, m) => HttpPost u a t m
  end.

(** The posts a list of send calls makes, in order. *)
Definition posts_of_sends (w : world) (calls : list (pyval * string))
    : list (string * string * pyval * string) :=
  flat_map (λ c, posts_of_send w c.1 c.2) calls.

(** An environment for the examples: the given keys, a Gemini that
    configures (or whose constructor raises), a network answering 200 with a
    JSON body. *)
Definition env_with (token key : option string) (gemini : outcome GenerativeModel)
    : environment :=
  {| getenv := λ name,
       if String.eqb name "FONTE_API_TOKEN" then token
       else if String.eqb name "GEMINI_API_KEY" then key
       else None;
     genai_configure := λ _, Return tt;
     genai_GenerativeModel := λ _ _, gemini;
     network := λ _ _ _ _, inr {| status_code := 200; json := inr (PDict ∅) |} |}.

(** ** Running the monad *)

Lemma bind_Return {A B : Type} (tr : list event) (a : A) (k : A → M B) :
  mbind k ((tr, Return a) : M A) = ((tr ++ (k a).1)%list, (k a).2).
Proof. unfold mbind, M_bind. destruct (k a); reflexivity. Qed.

Lemma bind_Raise {A B : Type} (tr : list event) (e : exn) (k : A → M B) :
  mbind k ((tr, Raise e) : M A) = (tr, Raise e).
Proof. reflexivity. Qed.

Lemma send_calls_app (tr1 tr2 : list event) :
  send_calls (tr1 ++ tr2)%list = (send_calls tr1 ++ send_calls tr2)%list.
Proof. apply omap_app. Qed.

Lemma completion_calls_app (tr1 tr2 : list event) :
  completion_calls (tr1 ++ tr2)%list
  = (completion_calls tr1 ++ completion_calls tr2)%list.
Proof. apply omap_app. Qed.

Lemma http_posts_app (tr1 tr2 : list event) :
  http_posts (tr1 ++ tr2)%list = (http_posts tr1 ++ http_posts tr2)%list.
Proof. apply omap_app. Qed.

Ltac run :=
  unfold mbind, M_bind, mret, M_ret, raise, emit, lift, try_except; simpl.

(** ** send_fonnte_reply *)

(** Without a token the helper logs an error and gives [False]; nothing is
    posted. *)
Lemma send_fonnte_reply_no_token (w : world) (target : pyval) (message : string) :
  str_truthy (FONTE_API_TOKEN w) = false →
  send_fonnte_reply w target message
  = ([SendCall target message;
      Log ERROR "Fonnte API Token tidak ada, tidak bisa mengirim balasan."],
     Return false).
Proof. intros H. unfold send_fonnte_reply. rewrite H. reflexivity. Qed.

(** With a token: the run of the helper, by what the post and the body
    do. *)
Lemma send_fonnte_reply_run (w : world) (target : pyval) (message : string) :
  str_truthy (FONTE_API_TOKEN w) = true →
  send_fonnte_reply w target message
  = match requests_post w fonnte_url (default "" (FONTE_API_TOKEN w))
            target message with
    | inl e =>
        if is_RequestException e then send_failed w target message
        else send_escaped w target message e
    | inr resp =>
        if Z.leb 400 (status_code resp) && Z.ltb (status_code resp) 600
        then send_failed w target message
        else match json resp with
             | inr v => send_succeeded w target message
             | inl e =>
                 if is_RequestException e then send_failed w target message
                 else send_escaped w target message e
             end
    end.
Proof.
  intros H. unfold send_fonnte_reply, post, raise_for_status, Response_json.
  rewrite H.
  destruct (requests_post w fonnte_url _ target message) as [e|resp].
  - destruct e; reflexivity.
  - run.
    destruct (Z.leb 400 (status_code resp) && Z.ltb (status_code resp) 600);
      [reflexivity|].
    simpl. destruct (json resp) as [e|v]; [destruct e|]; reflexivity.
Qed.

(** With a token there is one post, and the result is [True] exactly when
    the status is outside 400..599 and the body decodes. *)
Lemma send_fonnte_reply_with_token (w : world) (target : pyval) (message : string) :
  str_truthy (FONTE_API_TOKEN w) = true →
  (send_fonnte_reply w target message).2 = Return true
  ↔ ∃ resp v,
      requests_post w fonnte_url (default "" (FONTE_API_TOKEN w)) target message
      = inr resp
      ∧ (Z.leb 400 (status_code resp) && Z.ltb (status_code resp) 600) = false
      ∧ json resp = inr v.
Proof.
  intros H. rewrite (send_fonnte_reply_run w target message H).
  destruct (requests_post w fonnte_url _ target message) as [e|resp].
  - split.
    + destruct (is_RequestException e); discriminate.
    + intros (resp & v & Hr & _). discriminate Hr.
  - destruct (Z.leb 400 (status_code resp) && Z.ltb (status_code resp) 600) eqn:Hs.
    + split; [discriminate|]. intros (resp' & v & [= <-] & Hs' & _). congruence.
    + destruct (json resp) as [e|v] eqn:Hj.
      * split.
        -- destruct (is_RequestException e); discriminate.
        -- intros (resp' & v & [= <-] & _ & Hj'). congruence.
      * split; [|reflexivity]. intros _. exists resp, v. auto.
Qed.

(** The shape of every run of the helper: its own call event first, no
    other send and no completion call, the posts of one send; an exception
    that leaves it is a library error that is not a [RequestException]. *)
Lemma send_fonnte_reply_shape (w : world) (target : pyval) (message : string) :
  ∃ (tr : list event) (o : outcome bool),
    send_fonnte_reply w target message = (SendCall target message :: tr, o)
    ∧ send_calls tr = []
    ∧ completion_calls tr = []
    ∧ http_posts tr = posts_of_send w target message
    ∧ ∀ e, o = Raise e →
        ∃ e0 : error, e = Error e0 ∧ is_RequestException e0 = false
                      ∧ str_truthy (FONTE_API_TOKEN w) = true.
Proof.
  unfold posts_of_send. destruct (str_truthy (FONTE_API_TOKEN w)) eqn:H.
  - rewrite (send_fonnte_reply_run w target message H).
    assert (∀ e : error, is_RequestException e = false →
            ∃ tr o, send_escaped w target message e
                    = (SendCall target message :: tr, o)
              ∧ send_calls tr = [] ∧ completion_calls tr = []
              ∧ http_posts tr
                = [(fonnte_url, default "" (FONTE_API_TOKEN w), target, message)]
              ∧ ∀ e', o = Raise e' →
                  ∃ e0 : error, e' = Error e0 ∧ is_RequestException e0 = false
                                ∧ true = true) as Hesc.
    { intros e He. do 2 eexists. split; [reflexivity|]. simpl.
      repeat split. intros e' [= <-]. exists e. auto. }
    assert (∃ tr o, send_failed w target message
                    = (SendCall target message :: tr, o)
              ∧ send_calls tr = [] ∧ completion_calls tr = []
              ∧ http_posts tr
                = [(fonnte_url, default "" (FONTE_API_TOKEN w), target, message)]
              ∧ ∀ e', o = Raise e' →
                  ∃ e0 : error, e' = Error e0 ∧ is_RequestException e0 = false
                                ∧ true = true) as Hfail.
    { do 2 eexists. split; [reflexivity|]. simpl. repeat split. discriminate. }
    destruct (requests_post w fonnte_url _ target message) as [e|resp].
    + destruct (is_RequestException e) eqn:He; [exact Hfail | exact (Hesc e He)].
    + destruct (Z.leb 400 (status_code resp) && Z.ltb (status_code resp) 600);
        [exact Hfail|].
      destruct (json resp) as [e|v].
      * destruct (is_RequestException e) eqn:He; [exact Hfail | exact (Hesc e He)].
      * do 2 eexists. split; [reflexivity|]. simpl. repeat split. discriminate.
  - rewrite (send_fonnte_reply_no_token w target message H).
    do 2 eexists. split; [reflexivity|]. simpl. repeat split. discriminate.
Qed.

Lemma send_calls_send (w : world) (target : pyval) (message : string) :
  send_calls (send_fonnte_reply w target message).1 = [(target, message)].
Proof.
  destruct (send_fonnte_reply_shape w target message) as (tr & o & -> & Hs & _).
  simpl. rewrite Hs. reflexivity.
Qed.

Lemma completion_calls_send (w : world) (target : pyval) (message : string) :
  completion_calls (send_fonnte_reply w target message).1 = [].
Proof.
  destruct (send_fonnte_reply_shape w target message) as (tr & o & -> & _ & Hc & _).
  exact Hc.
Qed.

Lemma http_posts_send (w : world) (target : pyval) (message : string) :
  http_posts (send_fonnte_reply w target message).1
  = posts_of_send w target message.
Proof.
  destruct (send_fonnte_reply_shape w target message)
    as (tr & o & -> & _ & _ & Hp & _).
  exact Hp.
Qed.

Lemma posts_of_send_length (w : world) (target : pyval) (message : string) :
  (length (posts_of_send w target message) ≤ 1)%nat.
Proof.
  unfold posts_of_send. destruct (str_truthy (FONTE_API_TOKEN w)); simpl; lia.
Qed.

(** ** The send helper on a status outside 2xx *)

(** A 4xx or 5xx answer makes the helper return [False]. *)
Lemma send_fonnte_reply_error_status (w : world) (target : pyval)
    (message : string) (resp : Response) :
  str_truthy (FONTE_API_TOKEN w) = true →
  requests_post w fonnte_url (default "" (FONTE_API_TOKEN w)) target message
  = inr resp →
  (400 ≤ status_code resp < 600)%Z →
  (send_fonnte_reply w target message).2 = Return false.
Proof.
  intros Htok Hpost Hst.
  rewrite (send_fonnte_reply_run w target message Htok), Hpost.
  assert (Z.leb 400 (status_code resp) = true) as -> by lia.
  assert (Z.ltb (status_code resp) 600 = true) as -> by lia.
  reflexivity.
Qed.

(** Any other status with a JSON body makes it return [True]. *)
Lemma send_fonnte_reply_other_status (w : world) (target : pyval)
    (message : string) (resp : Response) (v : pyval) :
  str_truthy (FONTE_API_TOKEN w) = true →
  requests_post w fonnte_url (default "" (FONTE_API_TOKEN w)) target message
  = inr resp →
  (status_code resp < 400 ∨ 600 ≤ status_code resp)%Z →
  json resp = inr v →
  (send_fonnte_reply w target message).2 = Return true.
Proof.
  intros Htok Hpost Hst Hj.
  apply (send_fonnte_reply_with_token w target message Htok).
  exists resp, v. repeat split; [exact Hpost| |exact Hj].
  apply andb_false_iff. destruct Hst; [left|right]; lia.
Qed.

(** C6: with a token present, a response with status 300 (not 2xx) and a
    JSON body makes [send_fonnte_reply] log success and return [True]:
    [raise_for_status] raises for 400..599 only, where the comment on line 73
    expects every status outside 2xx to raise. *)
Theorem send_fonnte_reply_status_300 :
  send_fonnte_reply (world_with (Some "tok") None 300 (Some (PDict ∅)))
    (PStr "628123") "halo"
  = ([SendCall (PStr "628123") "halo";
      HttpPost fonnte_url "tok" (PStr "628123") "halo";
      Log INFO "Berhasil mengirim balasan ke "],
     Return true).
Proof. reflexivity. Qed.

(** ** More on send_fonnte_reply *)

(** X1: every run of [send_fonnte_reply] is of one of two kinds.  Either it
    returns a boolean, after its call, one post exactly when the token is set
    (to the Fonnte URL, with the token as [Authorization] and the two
    arguments as form fields) and one log entry, at INFO exactly when the
    result is [True] and at ERROR exactly when it is [False].  Or an
    exception leaves it, right after the post and with nothing logged: then
    the token is set, the exception is not a [RequestException], and it was
    raised by [requests.post] or, on a status outside 400..599, by
    [response.json()]. *)
Theorem send_fonnte_reply_trace (w : world) (target : pyval) (message : string) :
  (∃ (b : bool) (lvl : level) (msg : string),
     send_fonnte_reply w target message
     = (SendCall target message
        :: (post_event <$> posts_of_send w target message) ++ [Log lvl msg],
        Return b)
     ∧ (b = true ↔ lvl = INFO)
     ∧ (b = false ↔ lvl = ERROR))
  ∨ (∃ e : error,
       send_fonnte_reply w target message
       = ([SendCall target message;
           HttpPost fonnte_url (default "" (FONTE_API_TOKEN w)) target message],
          Raise (Error e))
       ∧ is_RequestException e = false
       ∧ str_truthy (FONTE_API_TOKEN w) = true
       ∧ (requests_post w fonnte_url (default "" (FONTE_API_TOKEN w))
            target message = inl e
          ∨ ∃ resp,
              requests_post w fonnte_url (default "" (FONTE_API_TOKEN w))
                target message = inr resp
              ∧ ¬ (400 ≤ status_code resp < 600)%Z
              ∧ json resp = inl e)).
Proof.
  unfold posts_of_send.
  destruct (str_truthy (FONTE_API_TOKEN w)) eqn:Htok.
  - rewrite (send_fonnte_reply_run w target message Htok).
    assert (∀ P : Prop,
              (∃ (b : bool) (lvl : level) (msg : string),
                 send_failed w target message
                 = (SendCall target message
                    :: (post_event <$>
                          [(fonnte_url, default "" (FONTE_API_TOKEN w),
                            target, message)]) ++ [Log lvl msg], Return b)
                 ∧ (b = true ↔ lvl = INFO) ∧ (b = false ↔ lvl = ERROR)) ∨ P)
      as Hfail.
    { intros P. left. do 3 eexists. split; [reflexivity|].
      split; split; congruence. }
    destruct (requests_post w fonnte_url _ target message) as [e|resp] eqn:Hp.
    + destruct (is_RequestException e) eqn:He; [apply Hfail|].
      right. exists e. repeat split; auto.
    + destruct (Z.leb 400 (status_code resp) && Z.ltb (status_code resp) 600) eqn:Hs;
        [apply Hfail|].
      destruct (json resp) as [e|v] eqn:Hj.
      * destruct (is_RequestException e) eqn:He; [apply Hfail|].
        right. exists e. repeat split; auto. right. exists resp.
        repeat split; auto. apply andb_false_iff in Hs. destruct Hs; lia.
      * left. do 3 eexists. split; [reflexivity|]. split; split; congruence.
  - left. rewrite (send_fonnte_reply_no_token w target message Htok).
    do 3 eexists. split; [reflexivity|]. split; split; congruence.
Qed.

(** X2: the result is [True] exactly when the token is set, the post is
    answered, the status is not in 400..599 and the body decodes as JSON. *)
Theorem send_fonnte_reply_true_iff (w : world) (target : pyval) (message : string) :
  (send_fonnte_reply w target message).2 = Return true
  ↔ str_truthy (FONTE_API_TOKEN w) = true
    ∧ ∃ (resp : Response) (v : pyval),
        requests_post w fonnte_url (default "" (FONTE_API_TOKEN w)) target message
        = inr resp
        ∧ ¬ (400 ≤ status_code resp < 600)%Z
        ∧ json resp = inr v.
Proof.
  destruct (str_truthy (FONTE_API_TOKEN w)) eqn:Htok.
  - rewrite (send_fonnte_reply_with_token w target message Htok). split.
    + intros (resp & v & Hr & Hs & Hj). split; [reflexivity|].
      exists resp, v. repeat split; [exact Hr| |exact Hj].
      apply andb_false_iff in Hs. destruct Hs as [Hs|Hs]; lia.
    + intros (_ & resp & v & Hr & Hs & Hj).
      exists resp, v. repeat split; [exact Hr| |exact Hj].
      apply andb_false_iff.
      destruct (Z.leb 400 (status_code resp)) eqn:E1; [right|left; reflexivity].
      destruct (Z.ltb (status_code resp) 600) eqn:E2; [|reflexivity]. lia.
  - rewrite (send_fonnte_reply_no_token w target message Htok). simpl.
    split; [discriminate|]. intros (H & _). discriminate H.
Qed.

(** X3: a 2xx answer whose body is not JSON, so that [response.json()]
    raises the [JSONDecodeError] of [requests] (or another
    [RequestException]), makes the helper report failure although the post
    went through: the call is evaluated for the success log line, inside the
    [try]. *)
Theorem send_fonnte_reply_undecodable_body (w : world) (target : pyval)
    (message : string) (resp : Response) (e : request_exception) :
  str_truthy (FONTE_API_TOKEN w) = true →
  requests_post w fonnte_url (default "" (FONTE_API_TOKEN w)) target message
  = inr resp →
  (200 ≤ status_code resp < 300)%Z →
  json resp = inl (RequestException e) →
  send_fonnte_reply w target message
  = ([SendCall target message;
      HttpPost fonnte_url (default "" (FONTE_API_TOKEN w)) target message;
      Log ERROR "Gagal mengirim balasan via Fonnte: "],
     Return false).
Proof.
  intros Htok Hpost Hst Hj.
  rewrite (send_fonnte_reply_run w target message Htok), Hpost, Hj.
  assert (Z.leb 400 (status_code resp) = false) as -> by lia.
  reflexivity.
Qed.

Lemma send_fonnte_reply_undecodable_body_witness :
  send_fonnte_reply (world_with (Some "tok") None 200 None) (PStr "628123") "halo"
  = ([SendCall (PStr "628123") "halo";
      HttpPost fonnte_url "tok" (PStr "628123") "halo";
      Log ERROR "Gagal mengirim balasan via Fonnte: "],
     Return false).
Proof.
  apply (send_fonnte_reply_undecodable_body
           (world_with (Some "tok") None 200 None) (PStr "628123") "halo"
           {| status_code := 200; json := inl (RequestException JSONDecodeError) |}
           JSONDecodeError).
  - reflexivity.
  - reflexivity.
  - simpl. lia.
  - reflexivity.
Defined.

(** X4: with the token unset or empty the helper makes no post: it logs one
    error and returns [False]. *)
Theorem send_fonnte_reply_missing_token (w : world) (target : pyval)
    (message : string) :
  FONTE_API_TOKEN w = None ∨ FONTE_API_TOKEN w = Some "" →
  send_fonnte_reply w target message
  = ([SendCall target message;
      Log ERROR "Fonnte API Token tidak ada, tidak bisa mengirim balasan."],
     Return false)
  ∧ http_posts (send_fonnte_reply w target message).1 = [].
Proof.
  intros H.
  assert (str_truthy (FONTE_API_TOKEN w) = false) as Htok
    by (destruct H as [-> | ->]; reflexivity).
  rewrite (send_fonnte_reply_no_token w target message Htok). auto.
Qed.

Lemma send_fonnte_reply_missing_token_witness :
  send_fonnte_reply (world_with (Some "") None 200 (Some PNone)) (PStr "628123") "halo"
  = ([SendCall (PStr "628123") "halo";
      Log ERROR "Fonnte API Token tidak ada, tidak bisa mengirim balasan."],
     Return false).
Proof.
  apply (send_fonnte_reply_missing_token
           (world_with (Some "") None 200 (Some PNone)) (PStr "628123") "halo").
  right. reflexivity.
Defined.

(** X5: a 4xx or 5xx answer makes [raise_for_status] raise; the helper
    catches it, logs one error and returns [False], whatever the body. *)
Theorem send_fonnte_reply_http_error (w : world) (target : pyval)
    (message : string) (resp : Response) :
  str_truthy (FONTE_API_TOKEN w) = true →
  requests_post w fonnte_url (default "" (FONTE_API_TOKEN w)) target message
  = inr resp →
  (400 ≤ status_code resp < 600)%Z →
  send_fonnte_reply w target message
  = ([SendCall target message;
      HttpPost fonnte_url (default "" (FONTE_API_TOKEN w)) target message;
      Log ERROR "Gagal mengirim balasan via Fonnte: "],
     Return false).
Proof.
  intros Htok Hpost Hst.
  rewrite (send_fonnte_reply_run w target message Htok), Hpost.
  assert (Z.leb 400 (status_code resp) = true) as -> by lia.
  assert (Z.ltb (status_code resp) 600 = true) as -> by lia.
  reflexivity.
Qed.

Lemma send_fonnte_reply_http_error_witness :
  (send_fonnte_reply (world_with (Some "tok") None 503 (Some (PDict ∅)))
     (PStr "628123") "halo").2 = Return false.
Proof.
  rewrite (send_fonnte_reply_http_error
             (world_with (Some "tok") None 503 (Some (PDict ∅)))
             (PStr "628123") "halo"
             {| status_code := 503; json := inr (PDict ∅) |}
             eq_refl eq_refl).
  - reflexivity.
  - simpl. lia.
Defined.

(** X6: when [requests.post] itself raises a [RequestException] (connection
    refused, timeout, ...) the helper catches it, logs one error and returns
    [False]; the post is not tried again. *)
Theorem send_fonnte_reply_transport_error (w : world) (target : pyval)
    (message : string) (e : request_exception) :
  str_truthy (FONTE_API_TOKEN w) = true →
  requests_post w fonnte_url (default "" (FONTE_API_TOKEN w)) target message
  = inl (RequestException e) →
  send_fonnte_reply w target message
  = ([SendCall target message;
      HttpPost fonnte_url (default "" (FONTE_API_TOKEN w)) target message;
      Log ERROR "Gagal mengirim balasan via Fonnte: "],
     Return false).
Proof.
  intros Htok Hpost.
  rewrite (send_fonnte_reply_run w target message Htok), Hpost. reflexivity.
Qed.

Lemma send_fonnte_reply_transport_error_witness :
  (send_fonnte_reply
     {| FONTE_API_TOKEN := Some "tok"; model := None;
        requests_post := λ _ _ _ _, inl (RequestException Timeout) |}
     (PStr "628123") "halo").2 = Return false.
Proof.
  rewrite (send_fonnte_reply_transport_error
             {| FONTE_API_TOKEN := Some "tok"; model := None;
                requests_post := λ _ _ _ _, inl (RequestException Timeout) |}
             (PStr "628123") "halo" Timeout eq_refl eq_refl).
  reflexivity.
Defined.

(** ** webhook before classification *)

Lemma webhook_not_is_json (w : world) (r : request) :
  method r = "POST" →
  is_json r = false →
  webhook w r
  = ([Log WARNING "POST request tidak berisi JSON."],
     Return ([("status", "error"); ("message", "Request must be JSON")], 400)).
Proof. intros Hm Hj. unfold webhook. rewrite Hm, Hj. reflexivity. Qed.

(** The loader rejects the body: [get_json] raises [BadRequest]. *)
Lemma webhook_unparsable_body (w : world) (r : request) (e : error) :
  method r = "POST" →
  is_json r = true →
  json_body r = inl e →
  is_ValueError e = true →
  webhook w r = ([], Raise BadRequest).
Proof.
  intros Hm Hj Hb He. unfold webhook, get_json. rewrite Hm, Hj, Hb, He.
  reflexivity.
Qed.

(** The loader fails in another way: its exception leaves the view. *)
Lemma webhook_loader_error (w : world) (r : request) (e : error) :
  method r = "POST" →
  is_json r = true →
  json_body r = inl e →
  is_ValueError e = false →
  webhook w r = ([], Raise (Error e)).
Proof.
  intros Hm Hj Hb He. unfold webhook, get_json. rewrite Hm, Hj, Hb, He.
  reflexivity.
Qed.

(** A JSON payload that is not an object. *)
Lemma webhook_non_object_raises (w : world) (r : request) (v : pyval) :
  json_request r v →
  (∀ d, v ≠ PDict d) →
  webhook w r = ([Log INFO "Menerima data dari Fonnte: "], Raise AttributeError).
Proof.
  intros (Hm & Hj & Hb) Hv. unfold webhook, get_json, py_get.
  rewrite Hm, Hj, Hb. run.
  destruct v; try reflexivity. exfalso. exact (Hv d eq_refl).
Qed.

Lemma dispatch_webhook_post (w : world) (r : request) :
  method r = "POST" →
  dispatch_webhook w r
  = match webhook w r with
    | (tr, Return resp) => (tr, ViewResponse resp)
    | (tr, Raise e) => (tr, handle_exception e)
    end.
Proof. intros Hm. unfold dispatch_webhook. rewrite Hm. reflexivity. Qed.

(** ** webhook on a genuine message *)

(** The run of the view on a genuine message, in terms of the runs of the
    send helper: lines 108-132.  The send of the reply is inside the [try]
    (line 125), so an exception it lets out is caught on line 129 and
    followed by the send of the error text (line 131); the two fallback
    sends (lines 113 and 131) are outside any [try]. *)
Lemma webhook_genuine_run (w : world) (r : request)
    (d : gmap string pyval) (m : pyval) :
  genuine_message r d m →
  webhook w r
  = match model w with
    | None =>
        (Log INFO "Menerima data dari Fonnte: "
         :: Log ERROR "Model Gemini tidak tersedia, tidak bisa memproses pesan."
         :: (send_fonnte_reply w (sender_of d) unavailable_text).1,
         and_then (send_fonnte_reply w (sender_of d) unavailable_text)
           ([("status", "error"); ("message", "Model not configured")], 500))
    | Some gemini =>
        match complete gemini m with
        | Return reply =>
            match (send_fonnte_reply w (sender_of d) reply).2 with
            | Return _ =>
                (Log INFO "Menerima data dari Fonnte: "
                 :: Log INFO "Mengirim pesan ke Gemini: "
                 :: GenerateContent m
                 :: Log INFO "Menerima balasan dari Gemini: "
                 :: (send_fonnte_reply w (sender_of d) reply).1,
                 Return ([("status", "success")], 200))
            | Raise _ =>
                (Log INFO "Menerima data dari Fonnte: "
                 :: Log INFO "Mengirim pesan ke Gemini: "
                 :: GenerateContent m
                 :: Log INFO "Menerima balasan dari Gemini: "
                 :: (send_fonnte_reply w (sender_of d) reply).1
                 ++ Log ERROR "Terjadi error saat memproses chat: "
                 :: (send_fonnte_reply w (sender_of d) error_text).1,
                 and_then (send_fonnte_reply w (sender_of d) error_text)
                   ([("status", "error");
                     ("message", "Internal server error")], 500))
            end
        | Raise _ =>
            (Log INFO "Menerima data dari Fonnte: "
             :: Log INFO "Mengirim pesan ke Gemini: "
             :: GenerateContent m
             :: Log ERROR "Terjadi error saat memproses chat: "
             :: (send_fonnte_reply w (sender_of d) error_text).1,
             and_then (send_fonnte_reply w (sender_of d) error_text)
               ([("status", "error"); ("message", "Internal server error")], 500))
        end
    end.
Proof.
  intros ((Hm & Hj & Hb) & Hmsg & Ht).
  unfold webhook, get_json, py_get, complete, sender_of, and_then.
  rewrite Hm, Hj, Hb. run. rewrite Hmsg. simpl. rewrite Ht. simpl.
  destruct (model w) as [gemini|].
  - destruct (generate_content gemini m) as [resp|e];
      [destruct (text resp) as [reply|e]|].
    + destruct (send_fonnte_reply w (default PNone (d !! "sender")) reply)
        as [tr1 [b1|e1]]; run.
      * rewrite ?app_nil_r. reflexivity.
      * destruct (send_fonnte_reply w (default PNone (d !! "sender")) error_text)
          as [tr2 [b2|e2]]; run; rewrite ?app_nil_r; reflexivity.
    + destruct (send_fonnte_reply w (default PNone (d !! "sender")) error_text)
        as [tr2 [b2|e2]]; run; rewrite ?app_nil_r; reflexivity.
    + destruct (send_fonnte_reply w (default PNone (d !! "sender")) error_text)
        as [tr2 [b2|e2]]; run; rewrite ?app_nil_r; reflexivity.
  - destruct (send_fonnte_reply w (default PNone (d !! "sender")) unavailable_text)
      as [tr [b|e]]; run; rewrite ?app_nil_r; reflexivity.
Qed.

Lemma genuine_message_chat_payload :
  genuine_message (json_post (PDict chat_payload)) chat_payload
    (PStr "apa itu tonsilitis?").
Proof. repeat split; vm_compute; reflexivity. Defined.

(** When the first send returns, the view makes that one send and returns
    the response of its path. *)
Lemma webhook_genuine_returns (w : world) (r : request)
    (d : gmap string pyval) (m : pyval) (b : bool) :
  genuine_message r d m →
  (send_fonnte_reply w (sender_of d) (reply_text w m)).2 = Return b →
  send_calls (webhook w r).1 = [(sender_of d, reply_text w m)]
  ∧ http_posts (webhook w r).1 = posts_of_send w (sender_of d) (reply_text w m)
  ∧ completion_calls (webhook w r).1
    = match model w with Some _ => [m] | None => [] end
  ∧ (webhook w r).2
    = Return
        match model w with
        | None => ([("status", "error"); ("message", "Model not configured")], 500)
        | Some gemini =>
            match complete gemini m with
            | Return _ => ([("status", "success")], 200)
            | Raise _ =>
                ([("status", "error"); ("message", "Internal server error")], 500)
            end
        end.
Proof.
  intros Hg Hs. rewrite (webhook_genuine_run w r d m Hg).
  unfold reply_text, and_then in *.
  destruct (model w) as [gemini|]; [destruct (complete gemini m) as [reply|e]|];
    rewrite ?Hs; simpl;
    rewrite ?send_calls_send, ?http_posts_send, ?completion_calls_send; auto.
Qed.

(** The runs the counterexamples below rest on: [requests.post] raises
    [UnicodeEncodeError] on each call. *)
Lemma webhook_unencodable_reply :
  send_calls
    (webhook (unencodable_world (Some echo_model))
       (json_post (PDict chat_payload))).1
  = [(PStr "628123", "Tonsilitis adalah..."); (PStr "628123", error_text)]
  ∧ (webhook (unencodable_world (Some echo_model))
       (json_post (PDict chat_payload))).2
    = Raise (Error (ValueError "UnicodeEncodeError")).
Proof. split; vm_compute; reflexivity. Qed.

Lemma webhook_unencodable_fallback (gemini : option GenerativeModel) :
  gemini = None ∨ gemini = Some failing_model →
  (webhook (unencodable_world gemini) (json_post (PDict chat_payload))).2
  = Raise (Error (ValueError "UnicodeEncodeError")).
Proof. intros [-> | ->]; vm_compute; reflexivity. Qed.

(** C1, as stated, fails: when [requests.post] raises an exception that is
    not a [RequestException] (a [UnicodeEncodeError] on a sender with a lone
    surrogate or on a token that is not latin-1), line 77 does not catch it,
    line 129 does, and line 131 sends again: two send calls, and no 200. *)
Lemma webhook_completion_success_counterexample :
  ¬ (∀ (w : world) (r : request) (d : gmap string pyval) (m : pyval)
       (gemini : GenerativeModel) (reply : string),
       genuine_message r d m →
       model w = Some gemini →
       complete gemini m = Return reply →
       (webhook w r).2 = Return ([("status", "success")], 200)
       ∧ send_calls (webhook w r).1 = [(sender_of d, reply)]).
Proof.
  intros H.
  destruct (H (unencodable_world (Some echo_model))
              (json_post (PDict chat_payload)) chat_payload
              (PStr "apa itu tonsilitis?") echo_model "Tonsilitis adalah..."
              genuine_message_chat_payload eq_refl eq_refl) as (Hr & _).
  destruct webhook_unencodable_reply as (_ & Hraise).
  rewrite Hraise in Hr. discriminate Hr.
Qed.

(** C1, amended: a POST carrying a JSON object with a non-empty [message],
    with the model configured, the completion returning [reply] and the send
    of that reply returning a boolean [b], is answered 200
    [{"status": "success"}] after exactly one call of the send helper, with
    the payload's sender and [reply]; the response is the same for [b] true
    and [b] false. *)
Theorem webhook_completion_success (w : world) (r : request)
    (d : gmap string pyval) (m : pyval) (gemini : GenerativeModel)
    (reply : string) (b : bool) :
  genuine_message r d m →
  model w = Some gemini →
  complete gemini m = Return reply →
  (send_fonnte_reply w (sender_of d) reply).2 = Return b →
  (webhook w r).2 = Return ([("status", "success")], 200)
  ∧ send_calls (webhook w r).1 = [(sender_of d, reply)].
Proof.
  intros Hg Hmod Hc Hs.
  assert (reply_text w m = reply) as Ht by (unfold reply_text; rewrite Hmod, Hc; reflexivity).
  rewrite <- Ht in Hs.
  destruct (webhook_genuine_returns w r d m b Hg Hs) as (Hsend & _ & _ & Hr).
  rewrite Hmod, Hc in Hr. rewrite Ht in Hsend. auto.
Qed.

Lemma webhook_completion_success_witness :
  (webhook (world_with (Some "tok") (Some echo_model) 500 None)
     (json_post (PDict chat_payload))).2
  = Return ([("status", "success")], 200)
  ∧ send_calls
      (webhook (world_with (Some "tok") (Some echo_model) 500 None)
         (json_post (PDict chat_payload))).1
    = [(sender_of chat_payload, "Tonsilitis adalah...")].
Proof.
  apply (webhook_completion_success
           (world_with (Some "tok") (Some echo_model) 500 None)
           (json_post (PDict chat_payload)) chat_payload
           (PStr "apa itu tonsilitis?") echo_model "Tonsilitis adalah..." false).
  - exact genuine_message_chat_payload.
  - reflexivity.
  - reflexivity.
  - vm_compute. reflexivity.
Defined.

(** C2, as stated, fails: the send of the error text on line 131 is outside
    any [try]; when [requests.post] raises an exception that is not a
    [RequestException] it leaves the view, and no 500 body is returned. *)
Lemma webhook_completion_failure_counterexample :
  ¬ (∀ (w : world) (r : request) (d : gmap string pyval) (m : pyval)
       (gemini : GenerativeModel) (e : exn),
       genuine_message r d m →
       model w = Some gemini →
       complete gemini m = Raise e →
       (webhook w r).2
       = Return ([("status", "error"); ("message", "Internal server error")], 500)
       ∧ send_calls (webhook w r).1 = [(sender_of d, error_text)]).
Proof.
  intros H.
  destruct (H (unencodable_world (Some failing_model))
              (json_post (PDict chat_payload)) chat_payload
              (PStr "apa itu tonsilitis?") failing_model
              (OtherException "ResourceExhausted")
              genuine_message_chat_payload eq_refl eq_refl) as (Hr & _).
  rewrite (webhook_unencodable_fallback (Some failing_model)) in Hr by auto.
  discriminate Hr.
Qed.

(** C2, amended: on the same payloads, when the completion raises (in
    [generate_content] or in reading [.text]) and the send of the error text
    returns a boolean, the answer is 500
    [{"status": "error", "message": "Internal server error"}] after exactly
    one call of the send helper, with the sender and the fixed error text. *)
Theorem webhook_completion_failure (w : world) (r : request)
    (d : gmap string pyval) (m : pyval) (gemini : GenerativeModel) (e : exn)
    (b : bool) :
  genuine_message r d m →
  model w = Some gemini →
  complete gemini m = Raise e →
  (send_fonnte_reply w (sender_of d) error_text).2 = Return b →
  (webhook w r).2
  = Return ([("status", "error"); ("message", "Internal server error")], 500)
  ∧ send_calls (webhook w r).1 = [(sender_of d, error_text)].
Proof.
  intros Hg Hmod Hc Hs.
  assert (reply_text w m = error_text) as Ht
    by (unfold reply_text; rewrite Hmod, Hc; reflexivity).
  rewrite <- Ht in Hs.
  destruct (webhook_genuine_returns w r d m b Hg Hs) as (Hsend & _ & _ & Hr).
  rewrite Hmod, Hc in Hr. rewrite Ht in Hsend. auto.
Qed.

Lemma webhook_completion_failure_witness :
  (webhook (world_with (Some "tok") (Some failing_model) 200 (Some PNone))
     (json_post (PDict chat_payload))).2
  = Return ([("status", "error"); ("message", "Internal server error")], 500)
  ∧ send_calls
      (webhook (world_with (Some "tok") (Some failing_model) 200 (Some PNone))
         (json_post (PDict chat_payload))).1
    = [(sender_of chat_payload, error_text)].
Proof.
  apply (webhook_completion_failure
           (world_with (Some "tok") (Some failing_model) 200 (Some PNone))
           (json_post (PDict chat_payload)) chat_payload
           (PStr "apa itu tonsilitis?") failing_model
           (OtherException "ResourceExhausted") true).
  - exact genuine_message_chat_payload.
  - reflexivity.
  - reflexivity.
  - vm_compute. reflexivity.
Defined.

(** C3, as stated, fails: the send of line 113 is outside any [try]; when
    [requests.post] raises an exception that is not a [RequestException] it
    leaves the view, and no ["Model not configured"] body is returned. *)
Lemma webhook_model_unavailable_counterexample :
  ¬ (∀ (w : world) (r : request) (d : gmap string pyval) (m : pyval),
       genuine_message r d m →
       model w = None →
       completion_calls (webhook w r).1 = []
       ∧ send_calls (webhook w r).1 = [(sender_of d, unavailable_text)]
       ∧ (webhook w r).2
         = Return ([("status", "error"); ("message", "Model not configured")], 500)).
Proof.
  intros H.
  destruct (H (unencodable_world None)
              (json_post (PDict chat_payload)) chat_payload
              (PStr "apa itu tonsilitis?")
              genuine_message_chat_payload eq_refl) as (_ & _ & Hr).
  rewrite (webhook_unencodable_fallback None) in Hr by auto.
  discriminate Hr.
Qed.

(** C3, amended: on the same payloads, when the model is [None] and the send
    of the service-unavailable text returns a boolean, no completion call is
    made, the send helper is called exactly once with the sender and that
    text, and the answer is 500
    [{"status": "error", "message": "Model not configured"}]. *)
Theorem webhook_model_unavailable (w : world) (r : request)
    (d : gmap string pyval) (m : pyval) (b : bool) :
  genuine_message r d m →
  model w = None →
  (send_fonnte_reply w (sender_of d) unavailable_text).2 = Return b →
  completion_calls (webhook w r).1 = []
  ∧ send_calls (webhook w r).1 = [(sender_of d, unavailable_text)]
  ∧ (webhook w r).2
    = Return ([("status", "error"); ("message", "Model not configured")], 500).
Proof.
  intros Hg Hmod Hs.
  assert (reply_text w m = unavailable_text) as Ht
    by (unfold reply_text; rewrite Hmod; reflexivity).
  rewrite <- Ht in Hs.
  destruct (webhook_genuine_returns w r d m b Hg Hs) as (Hsend & _ & Hc & Hr).
  rewrite Hmod in Hr, Hc. rewrite Ht in Hsend. auto.
Qed.

Lemma webhook_model_unavailable_witness :
  completion_calls
    (webhook (world_with (Some "tok") None 200 (Some PNone))
       (json_post (PDict chat_payload))).1 = []
  ∧ send_calls
      (webhook (world_with (Some "tok") None 200 (Some PNone))
         (json_post (PDict chat_payload))).1
    = [(sender_of chat_payload, unavailable_text)]
  ∧ (webhook (world_with (Some "tok") None 200 (Some PNone))
       (json_post (PDict chat_payload))).2
    = Return ([("status", "error"); ("message", "Model not configured")], 500).
Proof.
  apply (webhook_model_unavailable
           (world_with (Some "tok") None 200 (Some PNone))
           (json_post (PDict chat_payload)) chat_payload
           (PStr "apa itu tonsilitis?") true).
  - exact genuine_message_chat_payload.
  - reflexivity.
  - vm_compute. reflexivity.
Defined.

(** ** Status callbacks *)

Lemma webhook_json_array (w : world) :
  webhook w (json_post (PList []))
  = ([Log INFO "Menerima data dari Fonnte: "], Raise AttributeError).
Proof. reflexivity. Qed.

(** C4, as stated, fails: the body [[]] is JSON and has no [message] field,
    and [data.get] raises [AttributeError] on it, so there is no 200
    acknowledgement. *)
Lemma webhook_status_callback_counterexample :
  ¬ (∀ (w : world) (r : request) (data : pyval),
       json_request r data →
       absent_or_empty (message_field data) →
       (webhook w r).2
       = Return ([("status", "ok"); ("message", "Status update received")], 200)).
Proof.
  intros H.
  specialize (H (world_with None None 200 None) (json_post (PList []))
                (PList [])).
  rewrite webhook_json_array in H. simpl in H.
  assert (Raise AttributeError
          = Return ([("status", "ok"); ("message", "Status update received")], 200))
    as Habs by (apply H; [repeat split | exact I]).
  discriminate Habs.
Qed.

(** C4, amended: a POST whose body is a JSON object in which [message] is
    absent or empty is acknowledged with 200
    [{"status": "ok", "message": "Status update received"}]; no completion
    call and no call of the send helper is made. *)
Theorem webhook_status_callback (w : world) (r : request)
    (d : gmap string pyval) :
  json_request r (PDict d) →
  absent_or_empty (d !! "message") →
  (webhook w r).2
  = Return ([("status", "ok"); ("message", "Status update received")], 200)
  ∧ completion_calls (webhook w r).1 = []
  ∧ send_calls (webhook w r).1 = [].
Proof.
  intros (Hm & Hj & Hb) He.
  unfold webhook, get_json, py_get. rewrite Hm, Hj, Hb. run.
  destruct (d !! "message") as [m|]; simpl in *.
  - rewrite He. simpl. auto.
  - auto.
Qed.

Lemma webhook_status_callback_witness :
  (webhook (world_with (Some "tok") (Some echo_model) 200 (Some PNone))
     (json_post (PDict status_payload))).2
  = Return ([("status", "ok"); ("message", "Status update received")], 200)
  ∧ completion_calls
      (webhook (world_with (Some "tok") (Some echo_model) 200 (Some PNone))
         (json_post (PDict status_payload))).1 = []
  ∧ send_calls
      (webhook (world_with (Some "tok") (Some echo_model) 200 (Some PNone))
         (json_post (PDict status_payload))).1 = [].
Proof.
  apply (webhook_status_callback
           (world_with (Some "tok") (Some echo_model) 200 (Some PNone))
           (json_post (PDict status_payload)) status_payload).
  - repeat split.
  - vm_compute. exact I.
Defined.

(** ** One reply, one response *)

(** C5, as stated, fails: when the send of the generated reply lets an
    exception out (one that is not a [RequestException]), the view sends a
    second time, with the error text, and that send raises too: two send
    calls, and no response is returned. *)
Lemma webhook_one_reply_one_response_counterexample :
  ¬ (∀ (w : world) (r : request) (d : gmap string pyval) (m : pyval),
       genuine_message r d m →
       ∃ (reply : string) (resp : response),
         send_calls (webhook w r).1 = [(sender_of d, reply)]
         ∧ (webhook w r).2 = Return resp).
Proof.
  intros H.
  destruct (H (unencodable_world (Some echo_model))
              (json_post (PDict chat_payload)) chat_payload
              (PStr "apa itu tonsilitis?") genuine_message_chat_payload)
    as (reply & resp & _ & Hr).
  destruct webhook_unencodable_reply as (_ & Hraise).
  rewrite Hraise in Hr. discriminate Hr.
Qed.

(** C5, amended: a genuine message for which the send the view makes first
    returns a boolean leads to exactly one call of the send helper, to the
    sender (hence one post when the token is set, none otherwise), and to
    one returned response; the text sent is the generated reply on the
    success path, the service-unavailable text when the model is [None], and
    the error text when the completion raises. *)
Theorem webhook_one_reply_one_response (w : world) (r : request)
    (d : gmap string pyval) (m : pyval) (b : bool) :
  genuine_message r d m →
  (send_fonnte_reply w (sender_of d) (reply_text w m)).2 = Return b →
  ∃ (reply : string) (resp : response),
    send_calls (webhook w r).1 = [(sender_of d, reply)]
    ∧ http_posts (webhook w r).1 = posts_of_send w (sender_of d) reply
    ∧ (webhook w r).2 = Return resp
    ∧ ((∃ gemini, model w = Some gemini ∧ complete gemini m = Return reply
                  ∧ resp = ([("status", "success")], 200))
       ∨ (model w = None ∧ reply = unavailable_text
          ∧ resp = ([("status", "error"); ("message", "Model not configured")], 500))
       ∨ (∃ gemini e, model w = Some gemini ∧ complete gemini m = Raise e
                      ∧ reply = error_text
                      ∧ resp = ([("status", "error");
                                 ("message", "Internal server error")], 500))).
Proof.
  intros Hg Hs.
  destruct (webhook_genuine_returns w r d m b Hg Hs) as (Hsend & Hp & _ & Hr).
  exists (reply_text w m). eexists.
  split; [exact Hsend|]. split; [exact Hp|]. split; [exact Hr|].
  unfold reply_text.
  destruct (model w) as [gemini|] eqn:Hmod.
  - destruct (complete gemini m) as [reply|e] eqn:Hc.
    + left. exists gemini. auto.
    + right. right. exists gemini, e. auto.
  - right. left. auto.
Qed.

Lemma webhook_one_reply_one_response_witness :
  ∃ (reply : string) (resp : response),
    send_calls
      (webhook (world_with None (Some echo_model) 200 None)
         (json_post (PDict chat_payload))).1
    = [(PStr "628123", reply)]
    ∧ (webhook (world_with None (Some echo_model) 200 None)
         (json_post (PDict chat_payload))).2 = Return resp.
Proof.
  destruct (webhook_one_reply_one_response
              (world_with None (Some echo_model) 200 None)
              (json_post (PDict chat_payload)) chat_payload
              (PStr "apa itu tonsilitis?") false genuine_message_chat_payload)
    as (reply & resp & Hs & _ & Hr & _).
  - vm_compute. reflexivity.
  - exists reply, resp. split; [exact Hs | exact Hr].
Defined.

(** ** Requests that are not JSON *)

(** C7, as stated, fails: a POST declared [application/json] whose body does
    not parse is not JSON, and the view does not return the
    ["Request must be JSON"] body for it: [get_json] raises [BadRequest]. *)
Lemma webhook_non_json_counterexample :
  ¬ (∀ (w : world) (r : request),
       non_json_post r →
       (webhook w r).2
       = Return ([("status", "error"); ("message", "Request must be JSON")], 400)).
Proof.
  intros H.
  specialize (H (world_with None None 200 None) unparsable_post).
  assert (non_json_post unparsable_post) as Hn.
  { split; [reflexivity|]. right. eexists. split; reflexivity. }
  specialize (H Hn). discriminate H.
Qed.

(** C7, amended: a POST whose content type does not say JSON, or whose
    body the JSON loader rejects with a [ValueError] (a body that is not a
    JSON document), is answered with status 400 before the classification
    step, with no completion call and no call of the send helper.  When the
    content type does not say JSON the view returns
    [{"status": "error", "message": "Request must be JSON"}]; when it says
    JSON and the loader rejects the body, [get_json] raises [BadRequest] and
    the answer is the framework's 400 page.  (A body on which the loader
    fails in another way, such as a [RecursionError] on deep nesting, is not
    covered.) *)
Theorem webhook_non_json (w : world) (r : request) :
  non_json_post r →
  http_status (dispatch_webhook w r).2 = 400
  ∧ (Log INFO "Menerima data dari Fonnte: " ∉ (dispatch_webhook w r).1)
  ∧ completion_calls (dispatch_webhook w r).1 = []
  ∧ send_calls (dispatch_webhook w r).1 = []
  ∧ (is_json r = false →
     webhook w r
     = ([Log WARNING "POST request tidak berisi JSON."],
        Return ([("status", "error"); ("message", "Request must be JSON")], 400)))
  ∧ (is_json r = true → webhook w r = ([], Raise BadRequest)).
Proof.
  intros (Hm & Hn). rewrite (dispatch_webhook_post w r Hm).
  destruct (is_json r) eqn:Hj.
  - destruct Hn as [Hn|(e & Hb & He)]; [discriminate|].
    rewrite (webhook_unparsable_body w r e Hm Hj Hb He). simpl.
    repeat split; try done. apply not_elem_of_nil.
  - rewrite (webhook_not_is_json w r Hm Hj). simpl.
    repeat split; try done.
    intros Hin. apply list_elem_of_singleton in Hin. discriminate Hin.
Qed.

Lemma webhook_non_json_witness :
  http_status
    (dispatch_webhook (world_with (Some "tok") (Some echo_model) 200 None)
       unparsable_post).2 = 400
  ∧ http_status
      (dispatch_webhook (world_with (Some "tok") (Some echo_model) 200 None)
         (bare_request "POST")).2 = 400.
Proof.
  split.
  - apply (webhook_non_json (world_with (Some "tok") (Some echo_model) 200 None)
             unparsable_post).
    split; [reflexivity|]. right. eexists. split; reflexivity.
  - apply (webhook_non_json (world_with (Some "tok") (Some echo_model) 200 None)
             (bare_request "POST")).
    split; [reflexivity | left; reflexivity].
Defined.

(** ** GET *)

(** C9: a GET is answered 200 with the fixed body; the only effect is one
    log line: no completion call, no call of the send helper, no post. *)
Theorem webhook_get (w : world) (r : request) :
  method r = "GET" →
  webhook w r
  = ([Log INFO "Menerima GET request ke webhook. Merespon dengan status OK."],
     Return ([("status", "success");
              ("message", "Webhook is active and ready for POST requests.")], 200))
  ∧ completion_calls (webhook w r).1 = []
  ∧ send_calls (webhook w r).1 = []
  ∧ http_posts (webhook w r).1 = [].
Proof. intros Hm. unfold webhook. rewrite Hm. simpl. auto. Qed.

Lemma webhook_get_witness :
  webhook (world_with (Some "tok") (Some echo_model) 200 None) (bare_request "GET")
  = ([Log INFO "Menerima GET request ke webhook. Merespon dengan status OK."],
     Return ([("status", "success");
              ("message", "Webhook is active and ready for POST requests.")], 200)).
Proof.
  apply (webhook_get (world_with (Some "tok") (Some echo_model) 200 None)
           (bare_request "GET")).
  reflexivity.
Defined.

(** ** A payload without sender *)

Lemma genuine_message_insert_sender (r : request) (d : gmap string pyval)
    (m s : pyval) :
  genuine_message r d m →
  genuine_message (json_post (PDict (<["sender" := s]> d)))
    (<["sender" := s]> d) m.
Proof.
  intros (_ & Hmsg & Ht). repeat split; [|exact Ht].
  rewrite lookup_insert_ne by discriminate. exact Hmsg.
Qed.

Lemma genuine_message_anonymous_payload :
  genuine_message (json_post (PDict anonymous_payload)) anonymous_payload
    (PStr "halo").
Proof. repeat split; vm_compute; reflexivity. Defined.

Lemma webhook_unencodable_anonymous :
  (webhook (unencodable_world (Some echo_model))
     (json_post (PDict anonymous_payload))).2
  = Raise (Error (ValueError "UnicodeEncodeError")).
Proof. vm_compute. reflexivity. Qed.

(** C10, as stated, fails: with a token that [requests.post] cannot encode
    the send raises [UnicodeEncodeError] also for the target [None]; the
    view sends twice and the exception leaves it, so no response is
    returned. *)
Lemma webhook_missing_sender_counterexample :
  ¬ (∀ (w : world) (r : request) (d : gmap string pyval) (m : pyval),
       genuine_message r d m →
       d !! "sender" = None →
       ∃ (reply : string) (resp : response),
         send_calls (webhook w r).1 = [(PNone, reply)]
         ∧ (webhook w r).2 = Return resp).
Proof.
  intros H.
  destruct (H (unencodable_world (Some echo_model))
              (json_post (PDict anonymous_payload)) anonymous_payload
              (PStr "halo") genuine_message_anonymous_payload)
    as (reply & resp & _ & Hr).
  - vm_compute. reflexivity.
  - rewrite webhook_unencodable_anonymous in Hr. discriminate Hr.
Qed.

(** C10, amended: a genuine message without [sender] is not rejected: when
    the send to the target [None] returns a boolean, the one call of the
    send helper gets [None] as target, and so does its post, on each of the
    three paths, and the response returned is the one the same payload with
    any sender [s] gets for which the send returns a boolean (whose one send
    carries the same text to [s]). *)
Theorem webhook_missing_sender (w : world) (r : request)
    (d : gmap string pyval) (m : pyval) (b : bool) :
  genuine_message r d m →
  d !! "sender" = None →
  (send_fonnte_reply w PNone (reply_text w m)).2 = Return b →
  ∃ (reply : string) (resp : response),
    send_calls (webhook w r).1 = [(PNone, reply)]
    ∧ http_posts (webhook w r).1 = posts_of_send w PNone reply
    ∧ (webhook w r).2 = Return resp
    ∧ ∀ (s : pyval) (b' : bool),
        (send_fonnte_reply w s reply).2 = Return b' →
        (webhook w (json_post (PDict (<["sender" := s]> d)))).2 = Return resp
        ∧ send_calls (webhook w (json_post (PDict (<["sender" := s]> d)))).1
          = [(s, reply)].
Proof.
  intros Hg Hs Hsend.
  assert (sender_of d = PNone) as Hnone
    by (unfold sender_of; rewrite Hs; reflexivity).
  rewrite <- Hnone in Hsend.
  destruct (webhook_genuine_returns w r d m b Hg Hsend) as (Hc & Hp & _ & Hr).
  rewrite Hnone in Hc, Hp.
  exists (reply_text w m). eexists.
  split; [exact Hc|]. split; [exact Hp|]. split; [exact Hr|].
  intros s b' Hsend'.
  assert (sender_of (<["sender" := s]> d) = s) as Hsender
    by (unfold sender_of; rewrite lookup_insert_eq; reflexivity).
  rewrite <- Hsender in Hsend' at 1.
  destruct (webhook_genuine_returns w _ _ m b'
              (genuine_message_insert_sender r d m s Hg) Hsend')
    as (Hc' & _ & _ & Hr').
  rewrite Hsender in Hc'. auto.
Qed.

Lemma webhook_missing_sender_witness :
  ∃ (reply : string) (resp : response),
    send_calls
      (webhook (world_with (Some "tok") (Some echo_model) 200 (Some PNone))
         (json_post (PDict anonymous_payload))).1
    = [(PNone, reply)]
    ∧ (webhook (world_with (Some "tok") (Some echo_model) 200 (Some PNone))
         (json_post (PDict anonymous_payload))).2
      = Return resp.
Proof.
  destruct (webhook_missing_sender
              (world_with (Some "tok") (Some echo_model) 200 (Some PNone))
              (json_post (PDict anonymous_payload))
              anonymous_payload (PStr "halo") true
              genuine_message_anonymous_payload)
    as (reply & resp & Hs & _ & Hr & _).
  - vm_compute. reflexivity.
  - vm_compute. reflexivity.
  - exists reply, resp. split; [exact Hs | exact Hr].
Defined.

(** ** Other methods *)

(** The fallback of lines 134-135, for a request that reaches the view. *)
Lemma webhook_fallback (w : world) (r : request) :
  method r ≠ "GET" →
  method r ≠ "POST" →
  webhook w r
  = ([], Return ([("status", "error"); ("message", "Method not allowed")], 405)).
Proof.
  intros Hg Hp. unfold webhook.
  apply String.eqb_neq in Hg, Hp. rewrite Hg, Hp. reflexivity.
Qed.

(** A method outside the rule of line 82 does not reach the view. *)
Lemma dispatch_webhook_not_routed (w : world) (r : request) :
  method r ∉ ["POST"; "GET"; "HEAD"; "OPTIONS"] →
  dispatch_webhook w r = ([], ErrorPage 405).
Proof.
  intros Hn.
  apply not_elem_of_cons in Hn as [Hpost Hn].
  apply not_elem_of_cons in Hn as [Hget Hn].
  apply not_elem_of_cons in Hn as [Hhead Hn].
  apply not_elem_of_cons in Hn as [Hopt _].
  assert (method r ∉ route_methods) as Hroute.
  { unfold route_methods. rewrite !not_elem_of_cons.
    repeat split; [exact Hpost | exact Hget | apply not_elem_of_nil]. }
  unfold dispatch_webhook. rewrite (bool_decide_eq_false_2 _ Hroute).
  apply String.eqb_neq in Hhead, Hopt. rewrite Hhead, Hopt. reflexivity.
Qed.

(** C8: a PUT on /webhook is answered by the router with its own 405 page
    and an OPTIONS with the automatic 200 response; neither calls the view,
    so the JSON body of the fallback is produced for HEAD only. *)
Theorem dispatch_webhook_other_methods (w : world) :
  dispatch_webhook w (bare_request "PUT") = ([], ErrorPage 405)
  ∧ dispatch_webhook w (bare_request "OPTIONS") = ([], DefaultOptions)
  ∧ dispatch_webhook w (bare_request "HEAD")
    = ([], ViewResponse
             ([("status", "error"); ("message", "Method not allowed")], 405)).
Proof. repeat split. Qed.

(** ** The view on every request *)

(** Every request falls in one of three classes: answered without touching
    the model or the network, refused by an exception before classification,
    or a genuine message. *)
Lemma webhook_cases (r : request) :
  (∃ (tr : list event) (resp : response),
      (∀ w, webhook w r = (tr, Return resp))
      ∧ send_calls tr = [] ∧ completion_calls tr = [] ∧ http_posts tr = []
      ∧ (resp.2 = 200 ∨ resp.2 = 400 ∨ resp.2 = 405))
  ∨ (∃ (tr : list event) (e : exn),
        (∀ w, webhook w r = (tr, Raise e))
        ∧ send_calls tr = [] ∧ completion_calls tr = [] ∧ http_posts tr = []
        ∧ method r = "POST" ∧ is_json r = true
        ∧ ((e = BadRequest
            ∧ ∃ e0, json_body r = inl e0 ∧ is_ValueError e0 = true)
           ∨ (∃ e0 : error, e = Error e0
                ∧ json_body r = inl e0 ∧ is_ValueError e0 = false)
           ∨ (e = AttributeError
              ∧ ∃ v, json_body r = inr v ∧ ∀ d, v ≠ PDict d)))
  ∨ (∃ (d : gmap string pyval) (m : pyval), genuine_message r d m).
Proof.
  destruct (String.eqb (method r) "GET") eqn:Hget.
  { left. do 2 eexists. split.
    - intros w. unfold webhook. rewrite Hget. reflexivity.
    - simpl. repeat split; auto. }
  destruct (String.eqb (method r) "POST") eqn:Hpost.
  2: { left. do 2 eexists. split.
       - intros w. unfold webhook. rewrite Hget, Hpost. reflexivity.
       - simpl. repeat split; auto. }
  apply String.eqb_eq in Hpost.
  destruct (is_json r) eqn:Hj.
  2: { left. do 2 eexists. split.
       - intros w. exact (webhook_not_is_json w r Hpost Hj).
       - simpl. repeat split; auto. }
  destruct (json_body r) as [e0|v] eqn:Hb.
  { right. left. destruct (is_ValueError e0) eqn:He.
    - do 2 eexists. split.
      + intros w. exact (webhook_unparsable_body w r e0 Hpost Hj Hb He).
      + simpl. repeat split; auto. left. split; [reflexivity|]. eauto.
    - do 2 eexists. split.
      + intros w. exact (webhook_loader_error w r e0 Hpost Hj Hb He).
      + simpl. repeat split; auto. right. left. eauto. }
  assert (json_request r v) as Hreq by (repeat split; assumption).
  destruct v as [ | b | z | f | s | l | d ].
  1-6: right; left; do 2 eexists; split;
       [ intros w; apply (webhook_non_object_raises w r _ Hreq); discriminate
       | simpl; repeat split; auto; right; right; split; [reflexivity|];
         eexists; split; [reflexivity | discriminate] ].
  destruct (d !! "message") as [m|] eqn:Hmsg.
  - destruct (truthy m) eqn:Ht.
    + right. right. exists d, m. repeat split; assumption.
    + left. do 2 eexists. split.
      * intros w. unfold webhook, get_json, py_get.
        rewrite Hpost, Hj, Hb. run. rewrite Hmsg. simpl. rewrite Ht. reflexivity.
      * simpl. repeat split; auto.
  - left. do 2 eexists. split.
    + intros w. unfold webhook, get_json, py_get.
      rewrite Hpost, Hj, Hb. run. rewrite Hmsg. reflexivity.
    + simpl. repeat split; auto.
Qed.

(** What a genuine message makes the view call: the first send, the send
    of the error text when the first let an exception out, the posts of
    those sends, and one completion call when the model is configured. *)
Lemma webhook_genuine_calls (w : world) (r : request)
    (d : gmap string pyval) (m : pyval) :
  genuine_message r d m →
  send_calls (webhook w r).1
  = (sender_of d, reply_text w m)
    :: (if retried w d m then [(sender_of d, error_text)] else [])
  ∧ http_posts (webhook w r).1 = posts_of_sends w (send_calls (webhook w r).1)
  ∧ completion_calls (webhook w r).1
    = match model w with Some _ => [m] | None => [] end.
Proof.
  intros Hg. rewrite (webhook_genuine_run w r d m Hg).
  unfold reply_text, retried, posts_of_sends.
  destruct (model w) as [gemini|]; [destruct (complete gemini m) as [reply|e]|].
  - destruct (send_fonnte_reply w (sender_of d) reply).2 eqn:Hs; simpl;
      rewrite ?send_calls_app, ?http_posts_app, ?completion_calls_app; simpl;
      rewrite ?send_calls_send, ?http_posts_send, ?completion_calls_send;
      simpl; rewrite ?app_nil_r; auto.
  - simpl. rewrite ?send_calls_send, ?http_posts_send, ?completion_calls_send.
    simpl. rewrite ?app_nil_r. auto.
  - simpl. rewrite ?send_calls_send, ?http_posts_send, ?completion_calls_send.
    simpl. rewrite ?app_nil_r. auto.
Qed.

(** How the view ends on a genuine message: with a 200 or a 500, or with
    the exception of a fallback send (lines 113, 131). *)
Lemma webhook_genuine_outcome (w : world) (r : request)
    (d : gmap string pyval) (m : pyval) :
  genuine_message r d m →
  (∃ resp : response,
     (webhook w r).2 = Return resp ∧ (resp.2 = 200 ∨ resp.2 = 500))
  ∨ (∃ (text : string) (e : exn),
       (webhook w r).2 = Raise e
       ∧ (text = unavailable_text ∨ text = error_text)
       ∧ (send_fonnte_reply w (sender_of d) text).2 = Raise e).
Proof.
  intros Hg. rewrite (webhook_genuine_run w r d m Hg). unfold and_then.
  destruct (model w) as [gemini|]; [destruct (complete gemini m) as [reply|e]|].
  - destruct (send_fonnte_reply w (sender_of d) reply).2 eqn:Hs; simpl.
    + left. eexists. split; [reflexivity|]. auto.
    + destruct (send_fonnte_reply w (sender_of d) error_text).2 eqn:Hf.
      * left. eexists. split; [reflexivity|]. auto.
      * right. exists error_text. eexists. repeat split; eauto.
  - simpl. destruct (send_fonnte_reply w (sender_of d) error_text).2 eqn:Hf.
    + left. eexists. split; [reflexivity|]. auto.
    + right. exists error_text. eexists. repeat split; eauto.
  - simpl. destruct (send_fonnte_reply w (sender_of d) unavailable_text).2 eqn:Hf.
    + left. eexists. split; [reflexivity|]. auto.
    + right. exists unavailable_text. eexists. repeat split; eauto.
Qed.

Lemma send_raise_is_error (w : world) (target : pyval) (message : string)
    (e : exn) :
  (send_fonnte_reply w target message).2 = Raise e →
  ∃ e0 : error, e = Error e0 ∧ is_RequestException e0 = false.
Proof.
  intros H.
  destruct (send_fonnte_reply_shape w target message) as (tr & o & Heq & _ & _ & _ & Ho).
  rewrite Heq in H. simpl in H. destruct (Ho e H) as (e0 & -> & He & _). eauto.
Qed.

Lemma posts_of_sends_length (w : world) (calls : list (pyval * string)) :
  (length (posts_of_sends w calls) ≤ length calls)%nat.
Proof.
  unfold posts_of_sends. induction calls as [|c calls IH]; simpl; [lia|].
  rewrite length_app. pose proof (posts_of_send_length w c.1 c.2). lia.
Qed.

(** X7: an exception leaves the view only from [get_json] ([BadRequest]
    for a body the loader rejects with a [ValueError], the loader's own
    exception otherwise), from [data.get] on a payload that is not an object
    ([AttributeError]), or from one of the two fallback sends, which are
    outside any [try] (lines 113 and 131), and then it is not a
    [RequestException]; what the completion raises, and what the send of the
    generated reply raises, is caught on line 129. *)
Theorem webhook_raises_only (w : world) (r : request) (e : exn) :
  (webhook w r).2 = Raise e →
  method r = "POST" ∧ is_json r = true
  ∧ ((e = BadRequest ∧ ∃ e0, json_body r = inl e0 ∧ is_ValueError e0 = true)
     ∨ (∃ e0 : error, e = Error e0
          ∧ json_body r = inl e0 ∧ is_ValueError e0 = false)
     ∨ (e = AttributeError ∧ ∃ v, json_body r = inr v ∧ ∀ d, v ≠ PDict d)
     ∨ (∃ (d : gmap string pyval) (m : pyval) (text : string),
          genuine_message r d m
          ∧ (text = unavailable_text ∨ text = error_text)
          ∧ (send_fonnte_reply w (sender_of d) text).2 = Raise e
          ∧ is_RequestException e = false)).
Proof.
  intros Hr.
  destruct (webhook_cases r)
    as [(tr & resp & Hw & _) | [(tr & e' & Hw & _ & _ & _ & Hm & Hj & He)
                               | (d & m & Hg)]].
  - rewrite Hw in Hr. discriminate Hr.
  - rewrite Hw in Hr. injection Hr as <-. repeat split; auto.
    destruct He as [He | [He | He]]; auto.
  - pose proof Hg as ((Hm & Hj & _) & _). repeat split; auto.
    destruct (webhook_genuine_outcome w r d m Hg)
      as [(resp & Hw & _) | (text & e' & Hw & Ht & Hs)].
    + rewrite Hw in Hr. discriminate Hr.
    + rewrite Hw in Hr. injection Hr as <-.
      right. right. right. exists d, m, text.
      split; [exact Hg|]. split; [exact Ht|]. split; [exact Hs|].
      destruct (send_raise_is_error w _ _ _ Hs) as (e0 & -> & He0). exact He0.
Qed.

Lemma webhook_raises_only_witness :
  method (json_post (PDict chat_payload)) = "POST"
  ∧ is_json (json_post (PDict chat_payload)) = true.
Proof.
  destruct (webhook_raises_only (unencodable_world None)
              (json_post (PDict chat_payload))
              (Error (ValueError "UnicodeEncodeError")))
    as (Hm & Hj & _).
  - vm_compute. reflexivity.
  - split; [exact Hm | exact Hj].
Defined.

(** X8: one run of the view asks the model at most once and calls the send
    helper at most twice, with at most one post per send; it sends twice
    exactly when the send of the generated reply let an exception out, and
    the second send then carries the error text to the same sender. *)
Theorem webhook_call_bounds (w : world) (r : request) :
  (length (completion_calls (webhook w r).1) ≤ 1)%nat
  ∧ (length (send_calls (webhook w r).1) ≤ 2)%nat
  ∧ (length (http_posts (webhook w r).1)
     ≤ length (send_calls (webhook w r).1))%nat
  ∧ (length (send_calls (webhook w r).1) = 2%nat
     ↔ ∃ (d : gmap string pyval) (m : pyval) (gemini : GenerativeModel)
         (reply : string) (e : exn),
         genuine_message r d m
         ∧ model w = Some gemini
         ∧ complete gemini m = Return reply
         ∧ (send_fonnte_reply w (sender_of d) reply).2 = Raise e
         ∧ send_calls (webhook w r).1
           = [(sender_of d, reply); (sender_of d, error_text)]).
Proof.
  destruct (webhook_cases r)
    as [(tr & resp & Hw & Hs & Hc & Hp & _)
       | [(tr & e & Hw & Hs & Hc & Hp & _) | (d & m & Hg)]].
  - rewrite Hw. simpl. rewrite Hs, Hc, Hp. simpl.
    repeat split; try lia. intros (? & ? & ? & ? & ? & _ & _ & _ & _ & H).
    discriminate H.
  - rewrite Hw. simpl. rewrite Hs, Hc, Hp. simpl.
    repeat split; try lia. intros (? & ? & ? & ? & ? & _ & _ & _ & _ & H).
    discriminate H.
  - destruct (webhook_genuine_calls w r d m Hg) as (Hs & Hp & Hc).
    rewrite Hp, Hc. split; [destruct (model w); simpl; lia|].
    split; [rewrite Hs; destruct (retried w d m); simpl; lia|].
    split; [apply posts_of_sends_length|].
    rewrite Hs. unfold retried, reply_text.
    destruct (model w) as [gemini|] eqn:Hmod;
      [destruct (complete gemini m) as [reply|e] eqn:Hcomp|].
    + destruct (send_fonnte_reply w (sender_of d) reply).2 as [b|e] eqn:Hsend.
      * simpl. split; [discriminate|].
        intros (? & ? & ? & ? & ? & _ & _ & _ & _ & H). discriminate H.
      * simpl. split; [|reflexivity]. intros _.
        exists d, m, gemini, reply, e. auto.
    + simpl. split; [discriminate|].
      intros (? & ? & ? & ? & ? & _ & _ & _ & _ & H). discriminate H.
    + simpl. split; [discriminate|].
      intros (? & ? & ? & ? & ? & _ & _ & _ & _ & H). discriminate H.
Qed.

(** X9: every post to Fonnte is the post of a call of the send helper, with
    that call's target and text: the posts of a run are those of its send
    calls, in order. *)
Theorem webhook_posts_from_sends (w : world) (r : request) :
  http_posts (webhook w r).1 = posts_of_sends w (send_calls (webhook w r).1).
Proof.
  destruct (webhook_cases r)
    as [(tr & resp & Hw & Hs & Hc & Hp & _)
       | [(tr & e & Hw & Hs & Hc & Hp & _) | (d & m & Hg)]].
  - rewrite Hw. simpl. rewrite Hs, Hp. reflexivity.
  - rewrite Hw. simpl. rewrite Hs, Hp. reflexivity.
  - destruct (webhook_genuine_calls w r d m Hg) as (_ & Hp & _). exact Hp.
Qed.



(** X11: the send helper is called exactly for genuine messages: a request
    triggers a send if and only if it is an accepted JSON object with a
    non-empty [message]. *)
Theorem webhook_sends_iff_genuine (w : world) (r : request) :
  send_calls (webhook w r).1 ≠ []
  ↔ ∃ (d : gmap string pyval) (m : pyval), genuine_message r d m.
Proof.
  split.
  - intros Hne.
    destruct (webhook_cases r)
      as [(tr & resp & Hw & Hs & _) | [(tr & e & Hw & Hs & _) | Hg]].
    + rewrite Hw in Hne. simpl in Hne. contradiction.
    + rewrite Hw in Hne. simpl in Hne. contradiction.
    + exact Hg.
  - intros (d & m & Hg).
    destruct (webhook_genuine_calls w r d m Hg) as (Hs & _).
    rewrite Hs. discriminate.
Qed.

(** X12: the model is asked exactly once, with the [message] value itself as
    prompt, for a genuine message when the model is configured, and is not
    asked otherwise. *)
Theorem webhook_completion_iff (w : world) (r : request) (m : pyval) :
  completion_calls (webhook w r).1 = [m]
  ↔ (∃ d : gmap string pyval, genuine_message r d m) ∧ model w ≠ None.
Proof.
  split.
  - intros Hc.
    destruct (webhook_cases r)
      as [(tr & resp & Hw & _ & Hc' & _) | [(tr & e & Hw & _ & Hc' & _)
                                         | (d & m' & Hg)]].
    + rewrite Hw in Hc. simpl in Hc. congruence.
    + rewrite Hw in Hc. simpl in Hc. congruence.
    + destruct (webhook_genuine_calls w r d m' Hg) as (_ & _ & Hc').
      rewrite Hc' in Hc. destruct (model w); [|discriminate].
      injection Hc as <-. split; [exists d; exact Hg | discriminate].
  - intros ((d & Hg) & Hmod).
    destruct (webhook_genuine_calls w r d m Hg) as (_ & _ & Hc).
    rewrite Hc. destruct (model w); [reflexivity | contradiction].
Qed.

(** X13: whatever the request, the status of the answer to /webhook is 200,
    400, 405 or 500 (never the 415 of [get_json], which the [is_json] guard
    excludes). *)
Theorem dispatch_webhook_status (w : world) (r : request) :
  http_status (dispatch_webhook w r).2 ∈ [200; 400; 405; 500].
Proof.
  unfold dispatch_webhook.
  destruct (bool_decide (method r ∈ route_methods)
            || (String.eqb (method r) "HEAD" && bool_decide ("GET" ∈ route_methods))).
  - destruct (webhook_cases r)
      as [(tr & resp & Hw & _ & _ & _ & Hst)
         | [(tr & e & Hw & _ & _ & _ & _ & _ & He) | (d & m & Hg)]].
    + rewrite Hw. simpl. destruct Hst as [-> | [-> | ->]]; set_solver.
    + rewrite Hw.
      destruct He as [(-> & _) | [(e0 & -> & _) | (-> & _)]]; simpl; set_solver.
    + destruct (webhook_genuine_outcome w r d m Hg)
        as [(resp & Hw & Hst) | (text & e & Hw & _ & Hs)];
        destruct (webhook w r) as [tr o]; simpl in Hw; subst o; simpl.
      * destruct Hst as [-> | ->]; set_solver.
      * destruct (send_raise_is_error w _ _ _ Hs) as (e0 & -> & _).
        simpl. set_solver.
  - destruct (String.eqb (method r) "OPTIONS"); simpl; set_solver.
Qed.

(** X14: a JSON payload that is not an object (an array, a string, a number,
    [null], ...) gets status 500: [data.get] raises [AttributeError] outside
    any [try]; nothing is sent and the model is not asked. *)
Theorem dispatch_webhook_non_object (w : world) (r : request) (v : pyval) :
  json_request r v →
  (∀ d, v ≠ PDict d) →
  dispatch_webhook w r
  = ([Log INFO "Menerima data dari Fonnte: "], ErrorPage 500).
Proof.
  intros Hreq Hv. destruct Hreq as (Hm & Hj & Hb).
  rewrite (dispatch_webhook_post w r Hm).
  rewrite (webhook_non_object_raises w r v); [reflexivity| |exact Hv].
  repeat split; assumption.
Qed.

Lemma dispatch_webhook_non_object_witness :
  dispatch_webhook (world_with (Some "tok") (Some echo_model) 200 (Some PNone))
    (json_post PNone)
  = ([Log INFO "Menerima data dari Fonnte: "], ErrorPage 500).
Proof.
  apply (dispatch_webhook_non_object
           (world_with (Some "tok") (Some echo_model) 200 (Some PNone))
           (json_post PNone) PNone).
  - repeat split.
  - discriminate.
Defined.

(** X15: on a genuine message the view works in this order: it logs the
    payload, then (model configured) asks the model, and only after the
    completion returned or raised does it call the send helper; when the
    send of the generated reply lets an exception out, the error log and the
    whole run of the send of the error text follow; with no model the view
    goes straight to the send of the service-unavailable text. *)
Theorem webhook_genuine_trace (w : world) (r : request)
    (d : gmap string pyval) (m : pyval) :
  genuine_message r d m →
  (webhook w r).1
  = Log INFO "Menerima data dari Fonnte: "
    :: match model w with
       | None =>
           Log ERROR "Model Gemini tidak tersedia, tidak bisa memproses pesan."
           :: (send_fonnte_reply w (sender_of d) unavailable_text).1
       | Some gemini =>
           Log INFO "Mengirim pesan ke Gemini: "
           :: GenerateContent m
           :: match complete gemini m with
              | Return reply =>
                  Log INFO "Menerima balasan dari Gemini: "
                  :: (send_fonnte_reply w (sender_of d) reply).1
                  ++ match (send_fonnte_reply w (sender_of d) reply).2 with
                     | Return _ => []
                     | Raise _ =>
                         Log ERROR "Terjadi error saat memproses chat: "
                         :: (send_fonnte_reply w (sender_of d) error_text).1
                     end
              | Raise e =>
                  Log ERROR "Terjadi error saat memproses chat: "
                  :: (send_fonnte_reply w (sender_of d) error_text).1
              end
       end.
Proof.
  intros Hg. rewrite (webhook_genuine_run w r d m Hg).
  destruct (model w) as [gemini|]; [destruct (complete gemini m) as [reply|e]|];
    try reflexivity.
  destruct (send_fonnte_reply w (sender_of d) reply).2; simpl;
    rewrite ?app_nil_r; reflexivity.
Qed.

Lemma webhook_genuine_trace_witness :
  (webhook (world_with None None 200 None) (json_post (PDict chat_payload))).1
  = [Log INFO "Menerima data dari Fonnte: ";
     Log ERROR "Model Gemini tidak tersedia, tidak bisa memproses pesan.";
     SendCall (PStr "628123") unavailable_text;
     Log ERROR "Fonnte API Token tidak ada, tidak bisa mengirim balasan."].
Proof.
  rewrite (webhook_genuine_trace (world_with None None 200 None)
             (json_post (PDict chat_payload)) chat_payload
             (PStr "apa itu tonsilitis?") genuine_message_chat_payload).
  reflexivity.
Defined.

(** ** Start-up *)

(** The configuration of Gemini ends with one log line and the model. *)
Lemma configure_gemini_run (env : environment) :
  ∃ (lvl : level) (msg : string),
    configure_gemini env = ([Log lvl msg], Return (configured_model env))
    ∧ msg ≠ "API key untuk Fonnte atau Gemini tidak ditemukan. Harap set di file .env".
Proof.
  unfold configure_gemini, configured_model.
  destruct (genai_configure env (getenv env "GEMINI_API_KEY")) as [[]|e];
    [destruct (genai_GenerativeModel env model_name SYSTEM_INSTRUCTION) as [g|e]|];
    run; do 2 eexists; (split; [reflexivity | discriminate]).
Qed.

(** Start-up always ends with a world: the key check, then the
    configuration of Gemini. *)
Lemma startup_run (env : environment) :
  startup env
  = (((if negb (str_truthy (getenv env "FONTE_API_TOKEN"))
          || negb (str_truthy (getenv env "GEMINI_API_KEY"))
       then [Log ERROR "API key untuk Fonnte atau Gemini tidak ditemukan. Harap set di file .env";
             Log ERROR "Anda bisa memilih untuk exit jika keys tidak ada"]
       else [])
      ++ (configure_gemini env).1)%list,
     Return {| FONTE_API_TOKEN := getenv env "FONTE_API_TOKEN";
               model := configured_model env;
               requests_post := network env |}).
Proof.
  unfold startup.
  destruct (configure_gemini_run env) as (lvl & msg & -> & _).
  destruct (negb (str_truthy (getenv env "FONTE_API_TOKEN"))
            || negb (str_truthy (getenv env "GEMINI_API_KEY"))); reflexivity.
Qed.

(** X16: loading the module never fails, whatever the environment and
    whatever Gemini's configuration does: it ends with a world whose token is
    the value of [FONTE_API_TOKEN] in the environment (possibly unset), and
    whose model is [None] exactly when [genai.configure] or the
    [GenerativeModel] constructor raised; otherwise it is the model
    constructed with the fixed name and system instruction. *)
Theorem startup_returns (env : environment) :
  ∃ (tr : list event) (w : world),
    startup env = (tr, Return w)
    ∧ FONTE_API_TOKEN w = getenv env "FONTE_API_TOKEN"
    ∧ requests_post w = network env
    ∧ (model w = None ↔ configuration_raises env)
    ∧ (∀ gemini, model w = Some gemini →
         genai_GenerativeModel env model_name SYSTEM_INSTRUCTION = Return gemini).
Proof.
  do 2 eexists. split; [exact (startup_run env)|]. simpl.
  unfold configured_model, configuration_raises.
  destruct (genai_configure env (getenv env "GEMINI_API_KEY")) as [u|e];
    [destruct (genai_GenerativeModel env model_name SYSTEM_INSTRUCTION) as [g|e]|].
  - repeat split; try discriminate.
    + intros [(e & H) | (e & H)]; discriminate H.
    + intros gemini [= ->]. reflexivity.
  - repeat split; try discriminate. intros _. right. eauto.
  - repeat split; try discriminate. intros _. left. eauto.
Qed.

(** X17: the key check of lines 22-24 only logs.  Its error line is in the
    start-up log exactly when one of the two keys is unset or empty; and in
    either case start-up goes on: the log continues with the run of the
    Gemini configuration, and start-up returns the world with the
    environment's token and the configured model. *)
Theorem startup_key_check (env : environment) :
  (Log ERROR "API key untuk Fonnte atau Gemini tidak ditemukan. Harap set di file .env"
     ∈ (startup env).1
   ↔ str_truthy (getenv env "FONTE_API_TOKEN") = false
     ∨ str_truthy (getenv env "GEMINI_API_KEY") = false)
  ∧ (startup env).1
    = ((if negb (str_truthy (getenv env "FONTE_API_TOKEN"))
           || negb (str_truthy (getenv env "GEMINI_API_KEY"))
        then [Log ERROR "API key untuk Fonnte atau Gemini tidak ditemukan. Harap set di file .env";
              Log ERROR "Anda bisa memilih untuk exit jika keys tidak ada"]
        else [])
       ++ (configure_gemini env).1)%list
  ∧ (startup env).2
    = Return {| FONTE_API_TOKEN := getenv env "FONTE_API_TOKEN";
                model := configured_model env;
                requests_post := network env |}.
Proof.
  rewrite (startup_run env). simpl.
  split; [|split; reflexivity].
  destruct (configure_gemini_run env) as (lvl & msg & -> & Hmsg). simpl.
  destruct (str_truthy (getenv env "FONTE_API_TOKEN"));
    destruct (str_truthy (getenv env "GEMINI_API_KEY")); simpl.
  - split.
    + intros H. apply list_elem_of_singleton in H. injection H as _ H.
      exfalso. apply Hmsg. symmetry. exact H.
    + intros [H|H]; discriminate H.
  - split; [auto|]. intros _. apply elem_of_cons. left. reflexivity.
  - split; [auto|]. intros _. apply elem_of_cons. left. reflexivity.
  - split; [auto|]. intros _. apply elem_of_cons. left. reflexivity.
Qed.

(** What the view does in a world without usable token: no post. *)
Lemma webhook_without_token (w : world) (r : request) :
  str_truthy (FONTE_API_TOKEN w) = false →
  http_posts (webhook w r).1 = [].
Proof.
  intros Htok.
  assert (∀ calls, posts_of_sends w calls = []) as Hnone.
  { intros calls. unfold posts_of_sends, posts_of_send. rewrite Htok.
    induction calls as [|c calls IH]; [reflexivity | exact IH]. }
  destruct (webhook_cases r)
    as [(tr & resp & Hw & _ & _ & Hp & _)
       | [(tr & e & Hw & _ & _ & Hp & _) | (d & m & Hg)]].
  - rewrite Hw. exact Hp.
  - rewrite Hw. exact Hp.
  - destruct (webhook_genuine_calls w r d m Hg) as (_ & Hp & _).
    rewrite Hp. apply Hnone.
Qed.

(** X18: when [FONTE_API_TOKEN] is unset or empty at start-up the
    application still starts, and afterwards no request ever makes it post
    to Fonnte: replies are computed and handed to the send helper, which
    drops them. *)
Theorem startup_without_token_never_posts (env : environment) (w : world)
    (r : request) :
  (startup env).2 = Return w →
  str_truthy (getenv env "FONTE_API_TOKEN") = false →
  http_posts (webhook w r).1 = [].
Proof.
  intros Hw Htok. rewrite (startup_run env) in Hw. injection Hw as <-.
  apply webhook_without_token. exact Htok.
Qed.

Lemma startup_without_token_never_posts_witness :
  http_posts
    (webhook
       {| FONTE_API_TOKEN := None; model := Some echo_model;
          requests_post := network (env_with None (Some "key") (Return echo_model)) |}
       (json_post (PDict chat_payload))).1 = [].
Proof.
  apply (startup_without_token_never_posts
           (env_with None (Some "key") (Return echo_model))).
  - reflexivity.
  - reflexivity.
Defined.

(** X19: when configuring Gemini raised at start-up, every genuine message
    afterwards for which the send of the service-unavailable text returns a
    boolean is answered 500 ["Model not configured"], the sender is sent
    that text once, and the model is never asked. *)
Theorem startup_failed_configuration (env : environment) (w : world)
    (r : request) (d : gmap string pyval) (m : pyval) (b : bool) :
  (startup env).2 = Return w →
  configuration_raises env →
  genuine_message r d m →
  (send_fonnte_reply w (sender_of d) unavailable_text).2 = Return b →
  (webhook w r).2
  = Return ([("status", "error"); ("message", "Model not configured")], 500)
  ∧ send_calls (webhook w r).1 = [(sender_of d, unavailable_text)]
  ∧ completion_calls (webhook w r).1 = [].
Proof.
  intros Hw Hraise Hg Hs. rewrite (startup_run env) in Hw. injection Hw as <-.
  set (w0 := {| FONTE_API_TOKEN := getenv env "FONTE_API_TOKEN";
                model := configured_model env;
                requests_post := network env |}) in *.
  assert (model w0 = None) as Hnone.
  { unfold w0, configured_model. simpl.
    destruct Hraise as [(e & ->) | (e & ->)]; [reflexivity|].
    destruct (genai_configure env (getenv env "GEMINI_API_KEY")); reflexivity. }
  assert (reply_text w0 m = unavailable_text) as Ht
    by (unfold reply_text; rewrite Hnone; reflexivity).
  rewrite <- Ht in Hs.
  destruct (webhook_genuine_returns w0 r d m b Hg Hs) as (Hsend & _ & Hc & Hr).
  rewrite Hnone in Hr, Hc. rewrite Ht in Hsend. auto.
Qed.

Lemma startup_failed_configuration_witness :
  (webhook
     {| FONTE_API_TOKEN := Some "tok"; model := None;
        requests_post :=
          network (env_with (Some "tok") (Some "key")
                     (Raise (OtherException "InvalidArgument"))) |}
     (json_post (PDict chat_payload))).2
  = Return ([("status", "error"); ("message", "Model not configured")], 500).
Proof.
  apply (startup_failed_configuration
           (env_with (Some "tok") (Some "key")
              (Raise (OtherException "InvalidArgument")))
           _ (json_post (PDict chat_payload)) chat_payload
           (PStr "apa itu tonsilitis?") true).
  - reflexivity.
  - right. exists (OtherException "InvalidArgument"). reflexivity.
  - exact genuine_message_chat_payload.
  - vm_compute. reflexivity.
Defined.

(** X20: a missing key does not by itself disable the chat: whenever the two
    configuration calls return, with or without keys in the environment, a
    genuine message is handed to the constructed model, and when that
    completion returns and the send of the reply returns a boolean, the
    answer is 200 with the reply handed to the send helper once. *)
Theorem startup_configured_serves (env : environment) (w : world)
    (r : request) (d : gmap string pyval) (m : pyval)
    (gemini : GenerativeModel) (reply : string) (b : bool) :
  (startup env).2 = Return w →
  genai_configure env (getenv env "GEMINI_API_KEY") = Return tt →
  genai_GenerativeModel env model_name SYSTEM_INSTRUCTION = Return gemini →
  genuine_message r d m →
  complete gemini m = Return reply →
  (send_fonnte_reply w (sender_of d) reply).2 = Return b →
  (webhook w r).2 = Return ([("status", "success")], 200)
  ∧ completion_calls (webhook w r).1 = [m]
  ∧ send_calls (webhook w r).1 = [(sender_of d, reply)].
Proof.
  intros Hw Hconf Hctor Hg Hc Hs. rewrite (startup_run env) in Hw.
  injection Hw as <-.
  set (w0 := {| FONTE_API_TOKEN := getenv env "FONTE_API_TOKEN";
                model := configured_model env;
                requests_post := network env |}) in *.
  assert (model w0 = Some gemini) as Hmod.
  { unfold w0, configured_model. simpl. rewrite Hconf, Hctor. reflexivity. }
  assert (reply_text w0 m = reply) as Ht
    by (unfold reply_text; rewrite Hmod, Hc; reflexivity).
  rewrite <- Ht in Hs.
  destruct (webhook_genuine_returns w0 r d m b Hg Hs) as (Hsend & _ & Hcc & Hr).
  rewrite Hmod in Hr, Hcc. rewrite Hc in Hr. rewrite Ht in Hsend. auto.
Qed.

Lemma startup_configured_serves_witness :
  (webhook
     {| FONTE_API_TOKEN := None; model := Some echo_model;
        requests_post := network (env_with None None (Return echo_model)) |}
     (json_post (PDict chat_payload))).2
  = Return ([("status", "success")], 200).
Proof.
  apply (startup_configured_serves
           (env_with None None (Return echo_model))
           _ (json_post (PDict chat_payload)) chat_payload
           (PStr "apa itu tonsilitis?") echo_model "Tonsilitis adalah..." false).
  - reflexivity.
  - reflexivity.
  - reflexivity.
  - exact genuine_message_chat_payload.
  - reflexivity.
  - vm_compute. reflexivity.
Defined.
